(** * nhoyscript backend (backend/app.py): request handlers over a document store

    A shallow embedding of the Flask view functions [admin_login], [logout],
    [check_auth], [scripts] and [accounts] of backend/app.py, together with
    the parts of their environment they read and write: the JSON request
    body, the server-side session, the two MongoDB collections and the
    messages handed to [send_telegram_notification]. *)

From Stdlib Require Import ZArith SpecFloat Ascii String.
From stdpp Require Import base option list strings pretty gmap.

Local Open Scope string_scope.
#[local] Set Warnings "-register-all".

(** ** Python values obtained from JSON

    [request.get_json] yields [None], [bool], [int], [float], [str], [list]
    or [dict]; the same values are stored in documents and returned by
    [jsonify]. *)

Inductive json : Type :=
| JNull
| JBool (b : bool)
| JInt (z : Z)
| JFloat (f : spec_float)
| JStr (s : string)
| JArr (l : list json)
| JObj (m : gmap string json).

(** Python truth value, as used by [x or {}] and [not x]. *)
Definition truthy (v : json) : bool :=
  match v with
  | JNull => false
  | JBool b => b
  | JInt z => negb (z =? 0)%Z
  | JFloat (S754_zero _) => false
  | JFloat _ => true
  | JStr s => negb (String.eqb s "")
  | JArr l => negb (bool_decide (length l = 0))
  | JObj m => negb (bool_decide (size m = 0))
  end.

(** [x or y] *)
Definition py_or (x y : json) : json := if truthy x then x else y.

(** ** Exceptions and the handler monad *)

Inductive exn : Type :=
| AttributeError
| TypeError
| KeyError
| InvalidId
| DuplicateKeyError.

Inductive result (A : Type) : Type :=
| Ok (a : A)
| Raise (e : exn).
Arguments Ok {A} a.
Arguments Raise {A} e.

(** [needle in haystack] for two [str]: substring test. *)
Fixpoint str_contains (needle haystack : string) : bool :=
  String.prefix needle haystack ||
  match haystack with
  | EmptyString => false
  | String _ rest => str_contains needle rest
  end.

(** [k == v] for a [str] k and a JSON value v. *)
Definition str_eq_json (k : string) (v : json) : bool :=
  match v with
  | JStr s => String.eqb k s
  | _ => false
  end.

(** [k in data] for a [str] k: key membership on a dict, element membership
    on a list, substring on a str; other types are not containers. *)
Definition py_in (k : string) (data : json) : result bool :=
  match data with
  | JObj m => Ok (bool_decide (is_Some (m !! k)))
  | JArr l => Ok (existsb (str_eq_json k) l)
  | JStr s => Ok (str_contains k s)
  | _ => Raise TypeError
  end.

(** [data[k]] for a [str] k. *)
Definition py_getitem (data : json) (k : string) : result json :=
  match data with
  | JObj m => match m !! k with Some v => Ok v | None => Raise KeyError end
  | _ => Raise TypeError
  end.

(** [data.get(k, default)]; only a dict has the method. *)
Definition py_get (data : json) (k : string) (dflt : json) : result json :=
  match data with
  | JObj m => Ok (default dflt (m !! k))
  | _ => Raise AttributeError
  end.

(** ** ObjectId

    An ObjectId is represented by its rendering [str(oid)]: its bytes in
    lower-case hexadecimal digits, 24 of them for the identifiers the driver
    generates.  [ObjectId(s)] takes a [str] of length 24 that
    [bytes.fromhex] accepts and raises [InvalidId] on any other [str];
    [ObjectId(None)] generates a new identifier. *)

Abbreviation ObjectId := string (only parsing).

Definition is_hex_digit (c : ascii) : bool :=
  let n := nat_of_ascii c in
  ((48 <=? n) && (n <=? 57) || (65 <=? n) && (n <=? 70) || (97 <=? n) && (n <=? 102))%nat.

Definition hex_lower (c : ascii) : ascii :=
  let n := nat_of_ascii c in
  if ((65 <=? n) && (n <=? 70))%nat then ascii_of_nat (n + 32) else c.

Fixpoint str_forallb (p : ascii → bool) (s : string) : bool :=
  match s with
  | EmptyString => true
  | String c rest => p c && str_forallb p rest
  end.

Fixpoint str_map (f : ascii → ascii) (s : string) : string :=
  match s with
  | EmptyString => EmptyString
  | String c rest => String (f c) (str_map f rest)
  end.

(** The identifiers written in full: 24 hexadecimal digits. *)
Definition valid_oid (s : string) : bool :=
  (String.length s =? 24)%nat && str_forallb is_hex_digit s.

(** [Py_ISSPACE]: space, tab, line feed, vertical tab, form feed, carriage
    return. *)
Definition is_space (c : ascii) : bool :=
  let n := nat_of_ascii c in
  ((n =? 32) || (9 <=? n) && (n <=? 13))%nat.

(** [bytes.fromhex(s)], the bytes written as lower-case hexadecimal digits:
    pairs of digits, ASCII whitespace being skipped before each pair; [None]
    stands for its [ValueError]. *)
Fixpoint fromhex (s : string) : option string :=
  match s with
  | EmptyString => Some EmptyString
  | String c rest =>
      if is_space c then fromhex rest
      else if is_hex_digit c then
        match rest with
        | String d rest' =>
            if is_hex_digit d
            then (λ bytes, String (hex_lower c) (String (hex_lower d) bytes))
                   <$> fromhex rest'
            else None
        | EmptyString => None
        end
      else None
  end.

(** [ObjectId(s)] for a [str]: [len(s) == 24] and [bytes.fromhex(s)]
    succeeds; [None] stands for [InvalidId]. *)
Definition oid_of_str (s : string) : option ObjectId :=
  if (String.length s =? 24)%nat then fromhex s else None.

Definition ObjectId_new (generated : ObjectId) (oid : option string) : result ObjectId :=
  match oid with
  | None => Ok generated
  | Some s =>
      match oid_of_str s with
      | Some parsed => Ok parsed
      | None => Raise InvalidId
      end
  end.

(** ** The world a request runs in *)

(** Module-level configuration read from the environment at start-up. *)
Record config : Type := {
  ADMIN_PASSWORD : option string;
  TELEGRAM_BOT_TOKEN : option string;
  TELEGRAM_CHAT_ID : option string
}.

(** A formatted string literal before rendering: literal text and the values
    interpolated by [{...}], each rendered by [str()] when the message is
    built. *)
Inductive fpart : Type :=
| Lit (s : string)
| Val (v : json).

Abbreviation fstring := (list fpart).

(** A stored document: its [_id] and its other fields. *)
Abbreviation document := (ObjectId * gmap string json)%type.
Abbreviation collection := (list document).

Record world : Type := {
  session : gmap string json;
  scripts_collection : collection;
  accounts_collection : collection;
  telegram_outbox : list fstring
}.

Inductive http_method : Type := GET | HEAD | POST | PUT | DELETE.

(** The request body as received: none (or one not declared as JSON), text
    that does not parse, or a JSON document. *)
Inductive body : Type :=
| BodyAbsent
| BodyInvalid (raw : string)
| BodyJson (v : json).

Record request : Type := {
  method : http_method;
  req_body : body;
  remote_addr : option string
}.

(** A handler's return value [jsonify(...), status]. *)
Abbreviation response := (json * nat)%type.

Definition M (A : Type) : Type := world → result A * world.

#[global] Instance M_ret : MRet M := λ A a w, (Ok a, w).
#[global] Instance M_bind : MBind M := λ A B f m w,
  match m w with
  | (Ok a, w') => f a w'
  | (Raise e, w') => (Raise e, w')
  end.

(** A pure computation that may raise. *)
Definition lift {A} (r : result A) : M A := λ w, (r, w).

(** [try: x = m  except InvalidId: ...]: [None] when the handler clause is
    entered, any other exception propagates. *)
Definition except_InvalidId {A} (m : M A) : M (option A) := λ w,
  match m w with
  | (Ok a, w') => (Ok (Some a), w')
  | (Raise InvalidId, w') => (Ok None, w')
  | (Raise e, w') => (Raise e, w')
  end.

(** The status line of the reply: an uncaught exception becomes Flask's 500. *)
Definition status_of (r : result response) : nat :=
  match r with
  | Ok (_, code) => code
  | Raise _ => 500
  end.

(** ** The document store (pymongo collections)

    Documents are kept in insertion order.  [insert_one] stores the document
    under the identifier the driver generated for it; the unique index on
    [_id] rejects an identifier that is already present. *)

Definition insert_one (generated : ObjectId) (doc : gmap string json)
    (c : collection) : result (ObjectId * collection) :=
  if bool_decide (generated ∈ c.*1) then Raise DuplicateKeyError
  else Ok (generated, (c ++ [(generated, doc)])%list).

(** [update_one({"_id": oid}, {"$set": fields})]: the first matching
    document gets the listed fields overwritten; returns [matched_count]. *)
Fixpoint update_one (oid : ObjectId) (fields : gmap string json)
    (c : collection) : nat * collection :=
  match c with
  | [] => (0, [])
  | (i, d) :: rest =>
      if bool_decide (i = oid) then (1, (i, fields ∪ d) :: rest)
      else let '(n, rest') := update_one oid fields rest in (n, (i, d) :: rest')
  end.

(** [delete_one({"_id": oid})]: removes the first matching document; returns
    [deleted_count]. *)
Fixpoint delete_one (oid : ObjectId) (c : collection) : nat * collection :=
  match c with
  | [] => (0, [])
  | (i, d) :: rest =>
      if bool_decide (i = oid) then (1, rest)
      else let '(n, rest') := delete_one oid rest in (n, (i, d) :: rest')
  end.

Inductive handle : Type := Scripts | Accounts.

Definition coll_get (h : handle) (w : world) : collection :=
  match h with
  | Scripts => scripts_collection w
  | Accounts => accounts_collection w
  end.

Definition coll_set (h : handle) (c : collection) (w : world) : world :=
  match h with
  | Scripts =>
      {| session := session w; scripts_collection := c;
         accounts_collection := accounts_collection w;
         telegram_outbox := telegram_outbox w |}
  | Accounts =>
      {| session := session w; scripts_collection := scripts_collection w;
         accounts_collection := c;
         telegram_outbox := telegram_outbox w |}
  end.

Definition session_set (s : gmap string json) (w : world) : world :=
  {| session := s; scripts_collection := scripts_collection w;
     accounts_collection := accounts_collection w;
     telegram_outbox := telegram_outbox w |}.

Definition outbox_set (o : list fstring) (w : world) : world :=
  {| session := session w; scripts_collection := scripts_collection w;
     accounts_collection := accounts_collection w;
     telegram_outbox := o |}.

Definition db_find (h : handle) : M (list document) :=
  λ w, (Ok (coll_get h w), w).

Definition db_insert_one (h : handle) (generated : ObjectId)
    (doc : gmap string json) : M ObjectId := λ w,
  match insert_one generated doc (coll_get h w) with
  | Ok (i, c') => (Ok i, coll_set h c' w)
  | Raise e => (Raise e, w)
  end.

Definition db_update_one (h : handle) (oid : ObjectId)
    (fields : gmap string json) : M nat := λ w,
  let '(n, c') := update_one oid fields (coll_get h w) in (Ok n, coll_set h c' w).

Definition db_delete_one (h : handle) (oid : ObjectId) : M nat := λ w,
  let '(n, c') := delete_one oid (coll_get h w) in (Ok n, coll_set h c' w).

(** ** Telegram notification *)

(** [not x] for an environment value: unset or empty. *)
Definition env_missing (o : option string) : bool :=
  match o with
  | None => true
  | Some s => String.eqb s ""
  end.

(** The outbox records the one message posted to the Bot API; whether the
    call succeeds is not observed by the caller. *)
Definition send_telegram_notification (cfg : config) (message : fstring) : M unit :=
  λ w,
  if env_missing (TELEGRAM_BOT_TOKEN cfg) || env_missing (TELEGRAM_CHAT_ID cfg)
  then (Ok tt, w)
  else (Ok tt, outbox_set (telegram_outbox w ++ [message])%list w).

(** ** Auth helper *)

Definition is_admin_session (s : gmap string json) : bool :=
  match s !! "is_admin" with
  | Some (JBool true) => true
  | _ => false
  end.

Definition check_admin_auth : M bool :=
  λ w, (Ok (is_admin_session (session w)), w).

(** ** Request helpers *)

(** [request.get_json(silent=True)]: [None] unless the body parses. *)
Definition get_json_silent (b : body) : json :=
  match b with
  | BodyJson v => v
  | _ => JNull
  end.

(** [data = request.get_json(silent=True) or {}] *)
Definition request_data (req : request) : json :=
  py_or (get_json_silent (req_body req)) (JObj ∅).

(** [all(k in data for k in keys)], stopping at the first [False]. *)
Fixpoint all_in (keys : list string) (data : json) : result bool :=
  match keys with
  | [] => Ok true
  | k :: rest =>
      match py_in k data with
      | Ok true => all_in rest data
      | Ok false => Ok false
      | Raise e => Raise e
      end
  end.

Definition py_optstr (o : option string) : json :=
  match o with
  | Some s => JStr s
  | None => JNull
  end.

(** [password == ADMIN_PASSWORD] *)
Definition password_matches (password : json) (secret : option string) : bool :=
  match secret, password with
  | None, JNull => true
  | Some p, JStr s => String.eqb s p
  | _, _ => false
  end.

Definition nl : string := String (ascii_of_nat 10) EmptyString.

Definition message (text : string) : json := JObj {[ "message" := JStr text ]}.

(** [s["_id"] = str(s["_id"])] *)
Definition with_str_id (d : document) : json :=
  JObj (<["_id" := JStr d.1]> d.2).

Definition session_setitem (k : string) (v : json) : M unit :=
  λ w, (Ok tt, session_set (<[k := v]> (session w)) w).

(** ** AUTH API *)

(** [POST /api/login] *)
Definition admin_login (cfg : config) (req : request) : M response :=
  let data := request_data req in
  password ← lift (py_get data "password" JNull);
  if password_matches password (ADMIN_PASSWORD cfg) then
    session_setitem "is_admin" (JBool true);;
    (* session.permanent = True *)
    session_setitem "_permanent" (JBool true);;
    send_telegram_notification cfg
      [Lit ("🔐 *Admin Login Success!*" +:+ nl +:+ "IP: `");
       Val (py_optstr (remote_addr req)); Lit "`"];;
    mret (JObj {[ "success" := JBool true ]}, 200)
  else
    mret (JObj {[ "success" := JBool false;
                  "message" := JStr "Incorrect password" ]}, 401).

(** [POST /api/logout] *)
Definition logout : M response :=
  λ w, (Ok (JObj {[ "success" := JBool true ]}, 200), session_set ∅ w).

(** [GET /api/check-auth] *)
Definition check_auth : M response :=
  authenticated ← check_admin_auth;
  mret (JObj {[ "authenticated" := JBool authenticated ]}, 200).

(** ** Scripts API

    [generated] is the identifier the driver generates if this request
    inserts a document. *)
Definition scripts (cfg : config) (req : request) (generated : ObjectId)
    (script_id : option string) : M response :=
  match method req with
  | GET =>
      found ← db_find Scripts;
      mret (JArr (with_str_id <$> found), 200)
  | _ =>
      admin ← check_admin_auth;
      if negb admin then mret (message "Unauthorized", 401) else
      let data := request_data req in
      match method req with
      | POST =>
          present ← lift (all_in ["title"; "image"; "key"] data);
          if negb present then mret (message "Missing required fields", 400) else
          title ← lift (py_getitem data "title");
          image ← lift (py_getitem data "image");
          key ← lift (py_getitem data "key");
          inserted_id ← db_insert_one Scripts generated
            {[ "title" := title; "image" := image; "key" := key ]};
          let new_script : gmap string json :=
            {[ "_id" := JStr inserted_id; "title" := title;
               "image" := image; "key" := key ]} in
          send_telegram_notification cfg
            [Lit ("➕ *New Script Added:*" +:+ nl +:+ "`"); Val title; Lit "`"];;
          mret (JObj {[ "message" := JStr "Script added";
                        "script" := JObj new_script ]}, 201)
      | PUT =>
          present ← lift (all_in ["title"; "image"; "key"] data);
          if negb present then mret (message "Missing required fields", 400) else
          update_result ← except_InvalidId
            (oid ← lift (ObjectId_new generated script_id);
             title ← lift (py_getitem data "title");
             image ← lift (py_getitem data "image");
             key ← lift (py_getitem data "key");
             db_update_one Scripts oid
               {[ "title" := title; "image" := image; "key" := key ]});
          match update_result with
          | None => mret (message "Invalid script ID format", 400)
          | Some matched_count =>
              if bool_decide (matched_count = 0)
              then mret (message "Script not found", 404) else
              title ← lift (py_getitem data "title");
              send_telegram_notification cfg
                [Lit ("✏ *Script Updated:*" +:+ nl +:+ "ID: `");
                 Val (py_optstr script_id);
                 Lit ("`" +:+ nl +:+ "Title: `"); Val title; Lit "`"];;
              mret (message "Script updated", 200)
          end
      | DELETE =>
          result ← except_InvalidId
            (oid ← lift (ObjectId_new generated script_id);
             db_delete_one Scripts oid);
          match result with
          | None => mret (message "Invalid script ID format", 400)
          | Some deleted_count =>
              if bool_decide (deleted_count = 0)
              then mret (message "Script not found", 404) else
              send_telegram_notification cfg
                [Lit ("🗑 *Script Deleted:*" +:+ nl +:+ "ID: `");
                 Val (py_optstr script_id); Lit "`"];;
              mret (message "Script deleted", 200)
          end
      | _ => mret (message "Method not allowed", 405)
      end
  end.

(** ** Accounts / Profiles API *)
Definition accounts (cfg : config) (req : request) (generated : ObjectId)
    (account_id : option string) : M response :=
  match method req with
  | GET =>
      admin ← check_admin_auth;
      if negb admin then mret (message "Unauthorized", 401) else
      found ← db_find Accounts;
      mret (JArr (with_str_id <$> found), 200)
  | _ =>
      admin ← check_admin_auth;
      if negb admin then mret (message "Unauthorized", 401) else
      let data := request_data req in
      let required := ["name"; "image"; "username"; "password"] in
      match method req with
      | POST =>
          present ← lift (all_in required data);
          if negb present then mret (message "Missing required fields", 400) else
          accent_color ← lift (py_get data "accentColor" (JStr "#0ea5e9"));
          name ← lift (py_getitem data "name");
          image ← lift (py_getitem data "image");
          username ← lift (py_getitem data "username");
          password ← lift (py_getitem data "password");
          let doc : gmap string json :=
            {[ "name" := name; "image" := image; "username" := username;
               "password" := password; "accentColor" := accent_color ]} in
          inserted_id ← db_insert_one Accounts generated doc;
          let doc := <["_id" := JStr inserted_id]> doc in
          send_telegram_notification cfg
            [Lit ("👤 *New Profile Added:*" +:+ nl); Val name;
             Lit " (@"; Val username; Lit ")"];;
          mret (JObj {[ "message" := JStr "Profile added";
                        "account" := JObj doc ]}, 201)
      | PUT =>
          present ← lift (all_in required data);
          if negb present then mret (message "Missing required fields", 400) else
          name ← lift (py_getitem data "name");
          image ← lift (py_getitem data "image");
          username ← lift (py_getitem data "username");
          password ← lift (py_getitem data "password");
          accent_color ← lift (py_get data "accentColor" (JStr "#0ea5e9"));
          let update_doc : gmap string json :=
            {[ "name" := name; "image" := image; "username" := username;
               "password" := password; "accentColor" := accent_color ]} in
          update_result ← except_InvalidId
            (oid ← lift (ObjectId_new generated account_id);
             db_update_one Accounts oid update_doc);
          match update_result with
          | None => mret (message "Invalid account ID format", 400)
          | Some matched_count =>
              if bool_decide (matched_count = 0)
              then mret (message "Account not found", 404) else
              send_telegram_notification cfg
                [Lit ("📝 *Profile Updated:*" +:+ nl); Val name;
                 Lit " (@"; Val username; Lit ")"];;
              mret (message "Profile updated", 200)
          end
      | DELETE =>
          result ← except_InvalidId
            (oid ← lift (ObjectId_new generated account_id);
             db_delete_one Accounts oid);
          match result with
          | None => mret (message "Invalid account ID format", 400)
          | Some deleted_count =>
              if bool_decide (deleted_count = 0)
              then mret (message "Account not found", 404) else
              send_telegram_notification cfg
                [Lit ("🗑 *Profile Deleted:*" +:+ nl +:+ "ID: `");
                 Val (py_optstr account_id); Lit "`"];;
              mret (message "Profile deleted", 200)
          end
      | _ => mret (message "Method not allowed", 405)
      end
  end.

(** ** Named responses of the error taxonomy *)

Definition Unauthorized : response := (message "Unauthorized", 401).
Definition ValidationError : response := (message "Missing required fields", 400).
Definition InvalidIdentifier (h : handle) : response :=
  match h with
  | Scripts => (message "Invalid script ID format", 400)
  | Accounts => (message "Invalid account ID format", 400)
  end.
Definition NotFound (h : handle) : response :=
  match h with
  | Scripts => (message "Script not found", 404)
  | Accounts => (message "Account not found", 404)
  end.

(** The field [k] of the request body, when the body is a JSON object that
    has it. *)
Definition field_of (data : json) (k : string) : option json :=
  match data with
  | JObj m => m !! k
  | _ => None
  end.

(** The same request with another body. *)
Definition with_body (b : body) (req : request) : request :=
  {| method := method req; req_body := b; remote_addr := remote_addr req |}.

(** What [send_telegram_notification] adds to the outbox. *)
Definition posted (cfg : config) (msg : fstring) : list fstring :=
  if env_missing (TELEGRAM_BOT_TOKEN cfg) || env_missing (TELEGRAM_CHAT_ID cfg)
  then [] else [msg].

(** [str()] of the scalar values that occur in messages; floats and
    containers are not rendered here. *)
Definition py_str (v : json) : option string :=
  match v with
  | JNull => Some "None"
  | JBool true => Some "True"
  | JBool false => Some "False"
  | JInt z => Some (pretty z)
  | JStr s => Some s
  | _ => None
  end.

(** The text of a formatted string literal all of whose values are scalars. *)
Fixpoint render (msg : fstring) : option string :=
  match msg with
  | [] => Some ""
  | Lit s :: rest => (λ t, s +:+ t) <$> render rest
  | Val v :: rest => s ← py_str v; (λ t, s +:+ t) <$> render rest
  end.

(** ** Routes and messages *)

Definition required_fields (h : handle) : list string :=
  match h with
  | Scripts => ["title"; "image"; "key"]
  | Accounts => ["name"; "image"; "username"; "password"]
  end.

(** The view function bound to a collection's routes. *)
Definition view (h : handle) : config → request → ObjectId → option string → M response :=
  match h with
  | Scripts => scripts
  | Accounts => accounts
  end.

Definition profile_added (name username : json) : fstring :=
  [Lit ("👤 *New Profile Added:*" +:+ nl); Val name; Lit " (@"; Val username; Lit ")"].

Definition profile_updated (name username : json) : fstring :=
  [Lit ("📝 *Profile Updated:*" +:+ nl); Val name; Lit " (@"; Val username; Lit ")"].

Definition profile_deleted (account_id : option string) : fstring :=
  [Lit ("🗑 *Profile Deleted:*" +:+ nl +:+ "ID: `"); Val (py_optstr account_id); Lit "`"].

(** The document an account request writes. *)
Definition account_doc (m : gmap string json) (name image username password : json) :
    gmap string json :=
  {[ "name" := name; "image" := image; "username" := username;
     "password" := password;
     "accentColor" := default (JStr "#0ea5e9") (m !! "accentColor") ]}.

(** ** Concrete requests used below *)

Definition demo_cfg : config :=
  {| ADMIN_PASSWORD := Some "hunter2";
     TELEGRAM_BOT_TOKEN := Some "123:abc";
     TELEGRAM_CHAT_ID := Some "42" |}.

Definition unset_cfg : config :=
  {| ADMIN_PASSWORD := None; TELEGRAM_BOT_TOKEN := None; TELEGRAM_CHAT_ID := None |}.

Definition demo_oid : ObjectId := "65f0c0ffee0123456789abcd".
Definition zero_oid : ObjectId := "000000000000000000000000".

Definition alice : gmap string json :=
  {[ "name" := JStr "alice"; "image" := JStr "a.png"; "username" := JStr "al";
     "password" := JStr "s3cret"; "accentColor" := JStr "#0ea5e9" ]}.

Definition aimbot : gmap string json :=
  {[ "title" := JStr "Aimbot"; "image" := JStr "http://x/y.png";
     "key" := JStr "ABC123" ]}.

Definition world_of (s : gmap string json) (sc ac : collection) : world :=
  {| session := s; scripts_collection := sc; accounts_collection := ac;
     telegram_outbox := [] |}.

Definition admin_session : gmap string json :=
  {[ "is_admin" := JBool true; "_permanent" := JBool true ]}.

Definition request_of (meth : http_method) (b : body) : request :=
  {| method := meth; req_body := b; remote_addr := Some "203.0.113.7" |}.

Ltac run_handler :=
  cbv beta iota zeta delta
    [scripts accounts admin_login mbind M_bind mret M_ret lift
     check_admin_auth db_find except_InvalidId].

(** ** Image Upload API (Base64 Data URL) *)

(** An entry of [request.files]: the name the client gave and the bytes
    [file.read()] returns. *)
Record upload : Type := {
  filename : string;
  content : string
}.

(** [s.rsplit(".", 1)] when it has two parts: the text before and the text
    after the last dot; [None] when [s] has no dot (the list has one element
    and [[1]] is out of range). *)
Fixpoint rsplit_dot (s : string) : option (string * string) :=
  match s with
  | EmptyString => None
  | String c rest =>
      match rsplit_dot rest with
      | Some (before, after) => Some (String c before, after)
      | None => if Ascii.eqb c "." then Some (EmptyString, rest) else None
      end
  end.

Section Upload.
(** Library functions the handler calls: [base64.b64encode(...).decode()],
    [werkzeug.utils.secure_filename] and [str.lower]. *)
Variable b64encode : string → string.
Variable secure_filename : string → string.
Variable str_lower : string → string.

(** [ext = file.filename.rsplit(".", 1)[1].lower() if "." in file.filename
    else "png"]; [None] stands for the [IndexError] of [[1]]. *)
Definition upload_ext (name : string) : option string :=
  if str_contains "." name then (λ p, str_lower p.2) <$> rsplit_dot name
  else Some "png".

(** [POST /api/upload-image]; [files] is [request.files]. *)
Definition upload_image (files : gmap string upload) : M response :=
  admin ← check_admin_auth;
  if negb admin then mret (message "Unauthorized", 401) else
  match files !! "image" with
  | None => mret (message "No image file provided", 400)
  | Some file =>
      if String.eqb (filename file) "" then mret (message "No selected file", 400) else
      (* try: ... except Exception as e: ... *)
      match upload_ext (filename file) with
      | Some ext =>
          let mime_type := "image/" +:+ ext in
          let b64 := b64encode (content file) in
          let data_url := "data:" +:+ mime_type +:+ ";base64," +:+ b64 in
          mret (JObj {[ "success" := JBool true;
                        "imageUrl" := JStr data_url;
                        "filename" := JStr (secure_filename (filename file)) ]}, 200)
      | None =>
          mret (message "Error processing image: list index out of range", 500)
      end
  end.
End Upload.

(** ** Notify Script Copy *)

(** [POST /api/notify/copy] *)
Definition notify_copy (cfg : config) (req : request) : M response :=
  let data := request_data req in
  title ← lift (py_get data "title" (JStr "Unknown Script"));
  key ← lift (py_get data "key" (JStr ""));
  time_str ← lift (py_get data "time" (JStr "Unknown time"));
  send_telegram_notification cfg
    [Lit ("📋 *Script Copied!*" +:+ nl +:+ nl +:+ "*Title:* `"); Val title;
     Lit ("`" +:+ nl +:+ "*Time:* `"); Val time_str;
     Lit ("`" +:+ nl +:+ nl +:+ "*Snippet:*" +:+ nl)];;
  mret (JObj {[ "success" := JBool true;
                "message" := JStr "Notification sent" ]}, 200).

(** ** Vocabulary of the further properties *)

(** The collection a view does not serve. *)
Definition other (h : handle) : handle :=
  match h with
  | Scripts => Accounts
  | Accounts => Scripts
  end.

(** The same configuration with the Telegram credentials removed. *)
Definition without_telegram (cfg : config) : config :=
  {| ADMIN_PASSWORD := ADMIN_PASSWORD cfg;
     TELEGRAM_BOT_TOKEN := None;
     TELEGRAM_CHAT_ID := None |}.

(** What a successful update leaves in the collection: the matching document
    with the given fields overwritten, everything else as it was. *)
Definition overwritten (oid : ObjectId) (fields : gmap string json)
    (c : collection) : collection :=
  (λ d : document, if bool_decide (d.1 = oid) then (d.1, fields ∪ d.2) else d) <$> c.

(** What a successful delete leaves in the collection. *)
Definition without (oid : ObjectId) (c : collection) : collection :=
  filter (λ d : document, d.1 ≠ oid) c.

(** What a run of a view can leave behind. *)
Inductive effect_of (h : handle) (cfg : config) (req : request)
    (generated : ObjectId) (w : world) : result response → world → Prop :=
| NoEffect r :
    (∀ reply, r ≠ Ok (reply, 201)) →
    (∀ reply, method req = PUT ∨ method req = DELETE → r ≠ Ok (reply, 200)) →
    effect_of h cfg req generated w r w
| Inserted reply doc msg :
    method req = POST →
    generated ∉ (coll_get h w).*1 →
    effect_of h cfg req generated w (Ok (reply, 201))
      (outbox_set (telegram_outbox w ++ posted cfg msg)%list
         (coll_set h (coll_get h w ++ [(generated, doc)])%list w))
| Updated reply oid fields msg :
    method req = PUT →
    oid ∈ (coll_get h w).*1 →
    effect_of h cfg req generated w (Ok (reply, 200))
      (outbox_set (telegram_outbox w ++ posted cfg msg)%list
         (coll_set h (update_one oid fields (coll_get h w)).2 w))
| Deleted reply oid msg :
    method req = DELETE →
    oid ∈ (coll_get h w).*1 →
    effect_of h cfg req generated w (Ok (reply, 200))
      (outbox_set (telegram_outbox w ++ posted cfg msg)%list
         (coll_set h (delete_one oid (coll_get h w)).2 w)).

Definition script_updated (script_id : option string) (title : json) : fstring :=
  [Lit ("✏ *Script Updated:*" +:+ nl +:+ "ID: `"); Val (py_optstr script_id);
   Lit ("`" +:+ nl +:+ "Title: `"); Val title; Lit "`"].

Definition record_deleted (h : handle) (path_id : option string) : fstring :=
  match h with
  | Scripts =>
      [Lit ("🗑 *Script Deleted:*" +:+ nl +:+ "ID: `"); Val (py_optstr path_id); Lit "`"]
  | Accounts => profile_deleted path_id
  end.

Definition deleted_reply (h : handle) : response :=
  match h with
  | Scripts => (message "Script deleted", 200)
  | Accounts => (message "Profile deleted", 200)
  end.

Definition script_copied (title time_str : json) : fstring :=
  [Lit ("📋 *Script Copied!*" +:+ nl +:+ nl +:+ "*Title:* `"); Val title;
   Lit ("`" +:+ nl +:+ "*Time:* `"); Val time_str;
   Lit ("`" +:+ nl +:+ nl +:+ "*Snippet:*" +:+ nl)].

(** The world with what was posted forgotten. *)
Definition silent (w : world) : world := outbox_set [] w.

Ltac run_store :=
  cbv beta iota zeta delta
    [scripts accounts admin_login notify_copy mbind M_bind mret M_ret lift
     check_admin_auth db_find except_InvalidId
     db_insert_one db_update_one db_delete_one insert_one session_setitem].


(** * Properties *)

(** ** Membership tests on the request data *)

Lemma all_in_obj (keys : list string) (m : gmap string json) :
  all_in keys (JObj m) = Ok (forallb (λ k, bool_decide (is_Some (m !! k))) keys).
Proof.
  induction keys as [|k keys IH]; [reflexivity|].
  cbn [all_in py_in forallb]. destruct (bool_decide _); [exact IH | reflexivity].
Qed.

Lemma all_in_obj_missing (keys : list string) (m : gmap string json) (k : string) :
  k ∈ keys → m !! k = None → all_in keys (JObj m) = Ok false.
Proof.
  intros Hk Hm. rewrite all_in_obj. f_equal.
  apply not_true_is_false. intros Hall.
  rewrite forallb_forall in Hall.
  apply list_elem_of_In, Hall, bool_decide_eq_true in Hk.
  rewrite Hm in Hk. by destruct Hk.
Qed.

Lemma all_in_obj_present (keys : list string) (m : gmap string json) :
  Forall (λ k, is_Some (m !! k)) keys → all_in keys (JObj m) = Ok true.
Proof.
  intros Hall. rewrite all_in_obj. f_equal.
  apply forallb_forall. intros k Hk. apply bool_decide_eq_true.
  rewrite Forall_forall in Hall. by apply Hall, list_elem_of_In.
Qed.

(** On a str or a list the test never raises; on anything else but a dict it
    raises at the first key. *)
Lemma all_in_not_obj (keys : list string) (data : json) :
  keys ≠ [] → (∀ m, data ≠ JObj m) →
  (∃ b, all_in keys data = Ok b
        ∧ (∀ k d, py_get data k d = Raise AttributeError)
        ∧ (∀ k, py_getitem data k = Raise TypeError))
  ∨ all_in keys data = Raise TypeError.
Proof.
  intros Hne Hobj.
  destruct data as [| b | z | f | s | l | m];
    try (right; destruct keys; [done | reflexivity]);
    [| | exfalso; by eapply Hobj].
  - left. assert (∃ b, all_in keys (JStr s) = Ok b) as [b Hb].
    { clear Hne. induction keys as [|k keys [b IH]]; [by eexists|].
      cbn [all_in py_in]. destruct (str_contains k s); eauto. }
    exists b. eauto.
  - left. assert (∃ b, all_in keys (JArr l) = Ok b) as [b Hb].
    { clear Hne. induction keys as [|k keys [b IH]]; [by eexists|].
      cbn [all_in py_in]. destruct (existsb _ l); eauto. }
    exists b. eauto.
Qed.

(** An absent or unparsable body is read as the empty dict. *)
Lemma request_data_no_json (req : request) :
  get_json_silent (req_body req) = JNull → request_data req = JObj ∅.
Proof. unfold request_data. by intros ->. Qed.

(** ** Required fields of a Script *)

(** C1 (as amended): on a Script create (POST) or update (PUT) request by
    an authenticated admin, title, image and key are required to be present.
    When one of them is absent the world, the store included, stays as it
    was, whatever the body is; when the body is absent, unparsable or a JSON
    object the reply is ValidationError (400).  Nothing is required of the
    values: the empty string is accepted. *)
Theorem scripts_required_fields
    (cfg : config) (req : request) (generated : ObjectId)
    (script_id : option string) (w : world) (k : string) :
  is_admin_session (session w) = true →
  method req = POST ∨ method req = PUT →
  k ∈ ["title"; "image"; "key"] →
  field_of (request_data req) k = None →
  (scripts cfg req generated script_id w).2 = w
  ∧ (∀ m, request_data req = JObj m →
       scripts cfg req generated script_id w = (Ok ValidationError, w)).
Proof.
  intros Hadmin Hmeth Hk Hfield.
  assert (∀ m, request_data req = JObj m →
            scripts cfg req generated script_id w = (Ok ValidationError, w)) as Hobj.
  { intros m Hdata. rewrite Hdata in Hfield. cbn [field_of] in Hfield.
    pose proof (all_in_obj_missing _ _ _ Hk Hfield) as Hall.
    run_handler.
    destruct Hmeth as [-> | ->]; rewrite Hadmin, Hdata, Hall; reflexivity. }
  split; [|exact Hobj].
  destruct (request_data req) as [| b | z | f | s | l | m] eqn:Hdata;
    try (by rewrite (Hobj m)).
  all: destruct (all_in_not_obj ["title"; "image"; "key"] (request_data req))
         as [(b' & Hall & _ & Hitem) | Hall]; [done | by rewrite Hdata | | ].
  all: rewrite Hdata in *.
  all: run_handler;
    destruct Hmeth as [-> | ->]; rewrite Hadmin, Hdata, Hall; try reflexivity.
  all: destruct b'; cbn [negb]; rewrite ?Hitem; try reflexivity.
  all: destruct (ObjectId_new generated script_id) as [oid|[]]; reflexivity.
Qed.

Lemma scripts_required_fields_witness :
  let w := world_of admin_session [] [] in
  scripts demo_cfg
    (request_of POST (BodyJson (JObj {[ "image" := JStr "y.png"; "key" := JStr "K" ]})))
    demo_oid None w
  = (Ok ValidationError, w).
Proof.
  intros w.
  destruct (scripts_required_fields demo_cfg
              (request_of POST
                 (BodyJson (JObj {[ "image" := JStr "y.png"; "key" := JStr "K" ]})))
              demo_oid None w "title") as [_ Hobj];
    [vm_compute; reflexivity | left; reflexivity | repeat constructor
    | vm_compute; reflexivity |].
  apply (Hobj {[ "image" := JStr "y.png"; "key" := JStr "K" ]}). vm_compute; reflexivity.
Defined.

(** C1 (as stated) fails on an empty string: the handler tests only that the
    keys are present, so a create whose title is [""] is answered 201 and
    the document is written. *)
Lemma scripts_accepts_empty_title :
  let payload : gmap string json :=
    {[ "title" := JStr ""; "image" := JStr "y.png"; "key" := JStr "K" ]} in
  let out := scripts demo_cfg (request_of POST (BodyJson (JObj payload)))
               demo_oid None (world_of admin_session [] []) in
  payload !! "title" = Some (JStr "")
  ∧ status_of out.1 = 201
  ∧ scripts_collection out.2 = [(demo_oid, payload)].
Proof. vm_compute. repeat split. Qed.

(** ** Notification and session bookkeeping *)

Lemma send_telegram_notification_spec (cfg : config) (msg : fstring) (w : world) :
  send_telegram_notification cfg msg w
  = (Ok tt, outbox_set (telegram_outbox w ++ posted cfg msg)%list w).
Proof.
  unfold send_telegram_notification, posted.
  destruct (env_missing _ || env_missing _); [|reflexivity].
  destruct w; unfold outbox_set; cbn. by rewrite app_nil_r.
Qed.

Lemma is_admin_after_login (s : gmap string json) :
  is_admin_session (<["_permanent" := JBool true]> (<["is_admin" := JBool true]> s)) = true.
Proof.
  unfold is_admin_session.
  rewrite lookup_insert_ne by done. by rewrite lookup_insert_eq.
Qed.

(** [admin_login] on a dict body, as one equation. *)
Lemma admin_login_obj (cfg : config) (req : request) (w : world) (m : gmap string json) :
  request_data req = JObj m →
  admin_login cfg req w =
    if password_matches (default JNull (m !! "password")) (ADMIN_PASSWORD cfg)
    then
      let w1 := session_set
        (<["_permanent" := JBool true]> (<["is_admin" := JBool true]> (session w))) w in
      (Ok (JObj {[ "success" := JBool true ]}, 200),
       outbox_set
         (telegram_outbox w ++
          posted cfg [Lit ("🔐 *Admin Login Success!*" +:+ nl +:+ "IP: `");
                      Val (py_optstr (remote_addr req)); Lit "`"])%list w1)
    else
      (Ok (JObj {[ "success" := JBool false;
                   "message" := JStr "Incorrect password" ]}, 401), w).
Proof.
  intros Hdata. run_handler. rewrite Hdata. cbn [py_get].
  destruct (password_matches _ _); [|reflexivity].
  unfold session_setitem. by rewrite send_telegram_notification_spec.
Qed.

(** ** Listing without a session *)

(** C2: without an admin session, GET /api/accounts is answered with
    Unauthorized (401), a reply that does not depend on the accounts
    collection; GET /api/scripts is answered 200 with every stored script in
    order, each with its [_id] replaced by the identifier's string and its
    other fields as stored, whatever the session holds. *)
Theorem anonymous_listing
    (cfg : config) (req : request) (generated : ObjectId)
    (path_id : option string) (w : world) :
  method req = GET →
  (is_admin_session (session w) = false →
     ∀ others : collection,
       accounts cfg req generated path_id (coll_set Accounts others w)
       = (Ok Unauthorized, coll_set Accounts others w))
  ∧ scripts cfg req generated path_id w
    = (Ok (JArr (with_str_id <$> scripts_collection w), 200), w)
  ∧ Forall
      (λ d : document,
         field_of (with_str_id d) "_id" = Some (JStr d.1)
         ∧ ∀ k, k ≠ "_id" → field_of (with_str_id d) k = d.2 !! k)
      (scripts_collection w).
Proof.
  intros Hmeth. split; [|split].
  - intros Hanon others. run_handler. rewrite Hmeth. cbn [coll_set session].
    by rewrite Hanon.
  - run_handler. by rewrite Hmeth.
  - apply Forall_forall. intros [i d] _. cbn [with_str_id field_of fst snd]. split.
    + apply lookup_insert_eq.
    + intros k Hk. by apply lookup_insert_ne.
Qed.

Lemma anonymous_listing_witness :
  let w := world_of ∅ [(demo_oid, aimbot)] [(zero_oid, alice)] in
  accounts demo_cfg (request_of GET BodyAbsent) demo_oid None w = (Ok Unauthorized, w)
  ∧ scripts demo_cfg (request_of GET BodyAbsent) demo_oid None w
    = (Ok (JArr [JObj (<["_id" := JStr demo_oid]> aimbot)], 200), w).
Proof.
  intros w.
  destruct (anonymous_listing demo_cfg (request_of GET BodyAbsent) demo_oid None w eq_refl)
    as (Hacc & Hscr & _).
  split; [exact (Hacc eq_refl (accounts_collection w)) | exact Hscr].
Defined.

(** ** Login *)

(** C4: with an admin password configured, a login whose body carries
    exactly that string as [password] sets [is_admin] (and the session's
    permanence) and is answered 200 [{success: true}], the collections
    untouched; any other body that is read as a dict - another password, a
    password that is not a string, or none - leaves the world unchanged and
    is answered 401 [{success: false, message}]. *)
Theorem login_password_check
    (cfg : config) (req : request) (w : world) (pw : string) (m : gmap string json) :
  ADMIN_PASSWORD cfg = Some pw →
  request_data req = JObj m →
  (m !! "password" = Some (JStr pw) →
     ∃ w', admin_login cfg req w = (Ok (JObj {[ "success" := JBool true ]}, 200), w')
       ∧ session w'
         = <["_permanent" := JBool true]> (<["is_admin" := JBool true]> (session w))
       ∧ is_admin_session (session w') = true
       ∧ scripts_collection w' = scripts_collection w
       ∧ accounts_collection w' = accounts_collection w)
  ∧ (m !! "password" ≠ Some (JStr pw) →
     admin_login cfg req w
     = (Ok (JObj {[ "success" := JBool false;
                    "message" := JStr "Incorrect password" ]}, 401), w)).
Proof.
  intros Hpw Hdata. rewrite (admin_login_obj _ _ _ _ Hdata), Hpw. split.
  - intros ->. cbn [from_option id password_matches]. rewrite String.eqb_refl.
    eexists. split; [reflexivity|]. cbn. split; [done|].
    split; [apply is_admin_after_login | done].
  - intros Hne.
    destruct (m !! "password") as [[| | | | s | |]|] eqn:Hp; cbn; try reflexivity.
    destruct (String.eqb s pw) eqn:Heq; [|reflexivity].
    apply String.eqb_eq in Heq. by subst.
Qed.

Lemma login_password_check_witness :
  let w := world_of ∅ [] [] in
  (admin_login demo_cfg
     (request_of POST (BodyJson (JObj {[ "password" := JStr "hunter2" ]}))) w).1
  = Ok (JObj {[ "success" := JBool true ]}, 200)
  ∧ admin_login demo_cfg
      (request_of POST (BodyJson (JObj {[ "password" := JStr "Hunter2" ]}))) w
    = (Ok (JObj {[ "success" := JBool false;
                   "message" := JStr "Incorrect password" ]}, 401), w).
Proof.
  intros w. split.
  - destruct (login_password_check demo_cfg
                (request_of POST (BodyJson (JObj {[ "password" := JStr "hunter2" ]})))
                w "hunter2" {[ "password" := JStr "hunter2" ]}) as [Hok _];
      [reflexivity | vm_compute; reflexivity |].
    destruct Hok as (w' & -> & _); [vm_compute; reflexivity | reflexivity].
  - apply (login_password_check demo_cfg
             (request_of POST (BodyJson (JObj {[ "password" := JStr "Hunter2" ]})))
             w "hunter2" {[ "password" := JStr "Hunter2" ]});
      [reflexivity | vm_compute; reflexivity | vm_compute; discriminate].
Defined.

(** C5 (as amended): with no admin password configured, a login whose body
    is absent, unparsable or a JSON object without a [password] field passes
    the comparison ([None == None]): [is_admin] is set and the reply is 200
    [{success: true}]. *)
Theorem login_unconfigured_secret
    (cfg : config) (req : request) (w : world) (m : gmap string json) :
  ADMIN_PASSWORD cfg = None →
  request_data req = JObj m →
  m !! "password" = None →
  ∃ w', admin_login cfg req w = (Ok (JObj {[ "success" := JBool true ]}, 200), w')
    ∧ session w'
      = <["_permanent" := JBool true]> (<["is_admin" := JBool true]> (session w))
    ∧ is_admin_session (session w') = true.
Proof.
  intros Hpw Hdata Hm. rewrite (admin_login_obj _ _ _ _ Hdata), Hpw, Hm.
  cbn [from_option password_matches]. eexists. split; [reflexivity|].
  cbn. split; [done | apply is_admin_after_login].
Qed.

Lemma login_unconfigured_secret_witness :
  is_admin_session
    (session (admin_login unset_cfg (request_of POST BodyAbsent) (world_of ∅ [] [])).2)
  = true.
Proof.
  destruct (login_unconfigured_secret unset_cfg (request_of POST BodyAbsent)
              (world_of ∅ [] []) ∅) as (w' & -> & _ & Hadmin);
    [reflexivity | vm_compute; reflexivity | vm_compute; reflexivity |].
  exact Hadmin.
Defined.

(** C5 (as stated) fails on a body that is JSON but not an object: a list
    has no [password] field, yet [data.get] raises before the comparison,
    the reply is an error and the session stays anonymous. *)
Lemma login_list_body_raises :
  let req := request_of POST (BodyJson (JArr [JInt 1])) in
  let w := world_of ∅ [] [] in
  field_of (request_data req) "password" = None
  ∧ admin_login unset_cfg req w = (Raise AttributeError, w)
  ∧ status_of (admin_login unset_cfg req w).1 = 500
  ∧ is_admin_session (session (admin_login unset_cfg req w).2) = false.
Proof. vm_compute. repeat split. Qed.

(** ** Creating with a field missing *)

Lemma required_fields_nonempty (h : handle) : required_fields h ≠ [].
Proof. by destruct h. Qed.

(** C6 (as amended): a create request (Script or Account) by an
    authenticated admin in which a required field is missing leaves the
    world, both collections included, exactly as it was, whatever the body
    is; when the body is absent, unparsable or a JSON object the reply is
    ValidationError (400). *)
Theorem create_missing_field
    (h : handle) (cfg : config) (req : request) (generated : ObjectId)
    (path_id : option string) (w : world) (k : string) :
  is_admin_session (session w) = true →
  method req = POST →
  k ∈ required_fields h →
  field_of (request_data req) k = None →
  (view h cfg req generated path_id w).2 = w
  ∧ (∀ m, request_data req = JObj m →
       view h cfg req generated path_id w = (Ok ValidationError, w)).
Proof.
  intros Hadmin Hmeth Hk Hfield.
  assert (∀ m, request_data req = JObj m →
            view h cfg req generated path_id w = (Ok ValidationError, w)) as Hobj.
  { intros m Hdata. rewrite Hdata in Hfield. cbn [field_of] in Hfield.
    pose proof (all_in_obj_missing _ _ _ Hk Hfield) as Hall.
    destruct h; cbn [view required_fields] in *; run_handler;
      rewrite Hmeth, Hadmin, Hdata, Hall; reflexivity. }
  split; [|exact Hobj].
  destruct (request_data req) as [| b | z | f | s | l | m] eqn:Hdata;
    try (by rewrite (Hobj m)).
  all: destruct (all_in_not_obj (required_fields h) (request_data req)
                   (required_fields_nonempty h)) as [(b' & Hall & Hget & Hitem) | Hall];
    [by rewrite Hdata | | ].
  all: rewrite Hdata in *.
  all: destruct h; cbn [view required_fields] in *; run_handler;
    rewrite Hmeth, Hadmin, Hdata, Hall; try reflexivity.
  all: destruct b'; cbn [negb]; rewrite ?Hget, ?Hitem; reflexivity.
Qed.

Lemma create_missing_field_witness :
  let w := world_of admin_session [] [(zero_oid, alice)] in
  view Accounts demo_cfg
    (request_of POST (BodyJson (JObj (delete "password" alice)))) demo_oid None w
  = (Ok ValidationError, w).
Proof.
  intros w.
  destruct (create_missing_field Accounts demo_cfg
              (request_of POST (BodyJson (JObj (delete "password" alice))))
              demo_oid None w "password") as [_ Hobj];
    [vm_compute; reflexivity | reflexivity | repeat constructor
    | vm_compute; reflexivity |].
  apply (Hobj (delete "password" alice)). vm_compute; reflexivity.
Defined.

(** C6 (as stated) fails on a body that is JSON but not an object: for the
    number 5 the membership test itself raises, and the reply is an error
    500 instead of ValidationError (the collection is still unchanged). *)
Lemma create_number_body_raises :
  let req := request_of POST (BodyJson (JInt 5)) in
  let w := world_of admin_session [] [] in
  field_of (request_data req) "title" = None
  ∧ scripts demo_cfg req demo_oid None w = (Raise TypeError, w)
  ∧ status_of (scripts demo_cfg req demo_oid None w).1 = 500.
Proof. vm_compute. repeat split. Qed.

(** ** Malformed identifiers *)

Lemma ObjectId_new_rejected (generated : ObjectId) (s : string) :
  oid_of_str s = None → ObjectId_new generated (Some s) = Raise InvalidId.
Proof. unfold ObjectId_new. by intros ->. Qed.

Lemma hex_digit_not_space (c : ascii) : is_hex_digit c = true → is_space c = false.
Proof.
  destruct c as [[] [] [] [] [] [] [] []]; vm_compute; intros H;
    first [reflexivity | discriminate H].
Qed.

Lemma fromhex_digits (n : nat) (s : string) :
  String.length s = 2 * n → str_forallb is_hex_digit s = true →
  fromhex s = Some (str_map hex_lower s).
Proof.
  revert s. induction n as [|n IH]; intros s Hlen Hall.
  - by destruct s.
  - destruct s as [|c [|d rest]]; try (cbn in Hlen; lia).
    cbn [str_forallb] in Hall. apply andb_true_iff in Hall as [Hc Hall].
    apply andb_true_iff in Hall as [Hd Hall].
    cbn [fromhex str_map]. rewrite (hex_digit_not_space c Hc), Hc, Hd.
    rewrite IH; [done | cbn in Hlen; lia | done].
Qed.

(** On 24 hexadecimal digits the parser returns them in lower case. *)
Lemma oid_of_str_valid (s : string) :
  valid_oid s = true → oid_of_str s = Some (str_map hex_lower s).
Proof.
  unfold valid_oid, oid_of_str. intros H. apply andb_true_iff in H as [Hlen Hall].
  rewrite Hlen. apply Nat.eqb_eq in Hlen. by apply (fromhex_digits 12).
Qed.

Lemma ObjectId_new_valid (generated : ObjectId) (s : string) :
  valid_oid s = true → ObjectId_new generated (Some s) = Ok (str_map hex_lower s).
Proof. intros Hs. unfold ObjectId_new. by rewrite (oid_of_str_valid s Hs). Qed.

(** The values a dict body supplies for keys that passed the membership
    test. *)
Lemma py_getitem_present (m : gmap string json) (keys : list string) (k : string) :
  Forall (λ k, is_Some (m !! k)) keys → k ∈ keys →
  ∃ v, m !! k = Some v ∧ py_getitem (JObj m) k = Ok v.
Proof.
  intros Hall Hk. rewrite Forall_forall in Hall.
  destruct (Hall k Hk) as [v Hv]. exists v. cbn. by rewrite Hv.
Qed.

(** C7 (as amended): an update (PUT) or delete (DELETE) of a Script or an
    Account whose path identifier the store's parser rejects ([ObjectId]
    raises [InvalidId]) never changes the world, whatever the session and
    the body.  For an authenticated admin the reply is InvalidIdentifier
    (400) on every delete, and on every update whose body is a JSON object
    holding all required fields; an update whose body is absent, unparsable
    or a JSON object that lacks a required field is answered ValidationError
    (400) instead, the fields being checked before the identifier. *)
Theorem malformed_identifier
    (h : handle) (cfg : config) (req : request) (generated : ObjectId)
    (s : string) (w : world) :
  oid_of_str s = None →
  (method req = PUT ∨ method req = DELETE →
     (view h cfg req generated (Some s) w).2 = w)
  ∧ (is_admin_session (session w) = true → method req = DELETE →
     view h cfg req generated (Some s) w = (Ok (InvalidIdentifier h), w))
  ∧ (is_admin_session (session w) = true → method req = PUT →
     ∀ m, request_data req = JObj m →
          Forall (λ k, is_Some (m !! k)) (required_fields h) →
          view h cfg req generated (Some s) w = (Ok (InvalidIdentifier h), w))
  ∧ (is_admin_session (session w) = true → method req = PUT →
     ∀ m k, request_data req = JObj m →
            k ∈ required_fields h → m !! k = None →
            view h cfg req generated (Some s) w = (Ok ValidationError, w)).
Proof.
  intros Hs. pose proof (ObjectId_new_rejected generated s Hs) as Hnew.
  split; [|split; [|split]].
  - intros [Hmeth | Hmeth]; destruct h; cbn [view]; run_handler;
      rewrite Hmeth, Hnew; repeat case_match; simplify_eq; reflexivity.
  - intros Hadmin Hmeth. destruct h; cbn [view]; run_handler;
      rewrite Hmeth, Hadmin, Hnew; reflexivity.
  - intros Hadmin Hmeth m Hdata Hall.
    pose proof (all_in_obj_present _ _ Hall) as Hin.
    destruct h; cbn [view required_fields] in *; run_handler;
      rewrite Hmeth, Hadmin, Hdata, Hin, Hnew; [reflexivity|].
    destruct (py_getitem_present m _ "name" Hall) as (v1 & _ & ->); [set_solver|].
    destruct (py_getitem_present m _ "image" Hall) as (v2 & _ & ->); [set_solver|].
    destruct (py_getitem_present m _ "username" Hall) as (v3 & _ & ->); [set_solver|].
    destruct (py_getitem_present m _ "password" Hall) as (v4 & _ & ->); [set_solver|].
    reflexivity.
  - intros Hadmin Hmeth m k Hdata Hk Hm.
    pose proof (all_in_obj_missing _ _ _ Hk Hm) as Hall.
    destruct h; cbn [view required_fields] in *; run_handler;
      rewrite Hmeth, Hadmin, Hdata, Hall; reflexivity.
Qed.

Lemma malformed_identifier_witness :
  let w := world_of admin_session [(demo_oid, aimbot)] [] in
  view Scripts demo_cfg (request_of DELETE BodyAbsent) demo_oid (Some "not-an-id") w
  = (Ok (InvalidIdentifier Scripts), w).
Proof.
  intros w.
  destruct (malformed_identifier Scripts demo_cfg (request_of DELETE BodyAbsent)
              demo_oid "not-an-id" w) as (_ & Hdel & _); [vm_compute; reflexivity|].
  apply Hdel; [vm_compute; reflexivity | reflexivity].
Defined.

(** C7 (as stated) fails for an update that also lacks a required field:
    the fields are checked before the identifier is parsed, so the reply is
    ValidationError ("Missing required fields"), not InvalidIdentifier. *)
Lemma update_checks_fields_first :
  let w := world_of admin_session [(demo_oid, aimbot)] [] in
  oid_of_str "not-an-id" = None
  ∧ scripts demo_cfg (request_of PUT BodyAbsent) demo_oid (Some "not-an-id") w
    = (Ok ValidationError, w)
  ∧ field_of ValidationError.1 "message" ≠ field_of (InvalidIdentifier Scripts).1 "message".
Proof. vm_compute. repeat split. discriminate. Qed.

(** Whitespace between byte pairs is skipped by the parser: such a string of
    length 24 denotes a shorter identifier, which matches no stored document,
    and the reply is NotFound (404), not InvalidIdentifier. *)
Lemma spaced_identifier_is_parsed :
  let w := world_of admin_session [(demo_oid, aimbot)] [] in
  oid_of_str "00 00 00 00 00 00 00 00 " = Some "0000000000000000"
  ∧ scripts demo_cfg (request_of DELETE BodyAbsent) demo_oid
      (Some "00 00 00 00 00 00 00 00 ") w
    = (Ok (NotFound Scripts), w).
Proof. vm_compute. by split. Qed.

(** ** Updating a record that does not exist *)

Lemma coll_set_get (h : handle) (w : world) : coll_set h (coll_get h w) w = w.
Proof. by destruct h, w. Qed.

Lemma update_one_absent (oid : ObjectId) (fields : gmap string json) (c : collection) :
  oid ∉ c.*1 → update_one oid fields c = (0, c).
Proof.
  induction c as [|[i d] c IH]; [done|].
  cbn [update_one fmap list_fmap fst]. intros Hnot.
  apply not_elem_of_cons in Hnot as [Hne Hnot].
  rewrite bool_decide_eq_false_2 by done. by rewrite IH.
Qed.

Lemma update_one_count (oid : ObjectId) (fields : gmap string json) (c : collection) :
  (update_one oid fields c).1 = if bool_decide (oid ∈ c.*1) then 1 else 0.
Proof.
  induction c as [|[i d] c IH]; [done|].
  cbn [update_one fmap list_fmap fst].
  destruct (decide (i = oid)) as [->|Hne].
  - rewrite bool_decide_eq_true_2 by done.
    rewrite bool_decide_eq_true_2 by apply list_elem_of_here. done.
  - rewrite bool_decide_eq_false_2 by done.
    destruct (update_one oid fields c) as [n c'] eqn:Hu. cbn [fst] in *. rewrite IH.
    assert (bool_decide (oid ∈ i :: c.*1) = bool_decide (oid ∈ c.*1)) as ->; [|done].
    apply bool_decide_ext. rewrite elem_of_cons. intuition congruence.
Qed.

Lemma delete_one_count (oid : ObjectId) (c : collection) :
  (delete_one oid c).1 = if bool_decide (oid ∈ c.*1) then 1 else 0.
Proof.
  induction c as [|[i d] c IH]; [done|].
  cbn [delete_one fmap list_fmap fst].
  destruct (decide (i = oid)) as [->|Hne].
  - rewrite bool_decide_eq_true_2 by done.
    rewrite bool_decide_eq_true_2 by apply list_elem_of_here. done.
  - rewrite bool_decide_eq_false_2 by done.
    destruct (delete_one oid c) as [n c'] eqn:Hu. cbn [fst] in *. rewrite IH.
    assert (bool_decide (oid ∈ i :: c.*1) = bool_decide (oid ∈ c.*1)) as ->; [|done].
    apply bool_decide_ext. rewrite elem_of_cons. intuition congruence.
Qed.

Lemma db_update_one_absent (h : handle) (oid : ObjectId) (fields : gmap string json)
    (w : world) :
  oid ∉ (coll_get h w).*1 → db_update_one h oid fields w = (Ok 0, w).
Proof.
  intros Hnot. unfold db_update_one.
  rewrite (update_one_absent _ _ _ Hnot). by rewrite coll_set_get.
Qed.

(** C8: an authenticated update whose body is a JSON object holding all
    required fields and whose identifier is well formed but is the [_id] of
    no stored record is answered NotFound (404) and changes nothing; in
    particular PUT /api/accounts/000000000000000000000000 when no account
    has that identifier. *)
Theorem update_nonexistent
    (h : handle) (cfg : config) (req : request) (generated : ObjectId)
    (w : world) (m : gmap string json) :
  is_admin_session (session w) = true →
  method req = PUT →
  request_data req = JObj m →
  Forall (λ k, is_Some (m !! k)) (required_fields h) →
  (∀ s, valid_oid s = true → str_map hex_lower s ∉ (coll_get h w).*1 →
        view h cfg req generated (Some s) w = (Ok (NotFound h), w))
  ∧ (h = Accounts → zero_oid ∉ (accounts_collection w).*1 →
     accounts cfg req generated (Some "000000000000000000000000") w
     = (Ok (message "Account not found", 404), w)).
Proof.
  intros Hadmin Hmeth Hdata Hall.
  assert (∀ s, valid_oid s = true → str_map hex_lower s ∉ (coll_get h w).*1 →
            view h cfg req generated (Some s) w = (Ok (NotFound h), w)) as Hgen.
  { intros s Hs Hnot.
    pose proof (all_in_obj_present _ _ Hall) as Hin.
    pose proof (ObjectId_new_valid generated s Hs) as Hnew.
    destruct h; cbn [view required_fields] in *; run_handler;
      rewrite Hmeth, Hadmin, Hdata, Hin, Hnew; cbn [negb].
    - destruct (py_getitem_present m _ "title" Hall) as (v1 & _ & ->); [set_solver|].
      destruct (py_getitem_present m _ "image" Hall) as (v2 & _ & ->); [set_solver|].
      destruct (py_getitem_present m _ "key" Hall) as (v3 & _ & ->); [set_solver|].
      by rewrite (db_update_one_absent Scripts) by exact Hnot.
    - destruct (py_getitem_present m _ "name" Hall) as (v1 & _ & ->); [set_solver|].
      destruct (py_getitem_present m _ "image" Hall) as (v2 & _ & ->); [set_solver|].
      destruct (py_getitem_present m _ "username" Hall) as (v3 & _ & ->); [set_solver|].
      destruct (py_getitem_present m _ "password" Hall) as (v4 & _ & ->); [set_solver|].
      cbn [py_get].
      by rewrite (db_update_one_absent Accounts) by exact Hnot. }
  split; [exact Hgen|].
  intros -> Hnot. apply (Hgen "000000000000000000000000"); [reflexivity | exact Hnot].
Qed.

Lemma update_nonexistent_witness :
  let w := world_of admin_session [] [(demo_oid, alice)] in
  accounts demo_cfg (request_of PUT (BodyJson (JObj alice))) demo_oid
    (Some "000000000000000000000000") w
  = (Ok (message "Account not found", 404), w).
Proof.
  intros w.
  destruct (update_nonexistent Accounts demo_cfg (request_of PUT (BodyJson (JObj alice)))
              demo_oid w alice) as [_ Hzero];
    [vm_compute; reflexivity | reflexivity | vm_compute; reflexivity
    | repeat constructor; vm_compute; eauto |].
  apply Hzero; [reflexivity|]. cbn. rewrite list_elem_of_singleton. discriminate.
Defined.

(** ** Create, then list *)

(** A JSON object sent as the body is the dict the handler works on. *)
Lemma request_data_obj (req : request) (m : gmap string json) :
  req_body req = BodyJson (JObj m) → request_data req = JObj m.
Proof.
  unfold request_data. intros ->. cbn [get_json_silent]. unfold py_or, truthy.
  case_bool_decide as Hsize; [|reflexivity]. cbn [negb].
  apply map_size_empty_iff in Hsize. by subst.
Qed.

(** [POST /api/scripts] by an admin with the three fields present. *)
Lemma scripts_post_obj
    (cfg : config) (req : request) (generated : ObjectId) (path_id : option string)
    (w : world) (m : gmap string json) (title image key : json) :
  is_admin_session (session w) = true →
  method req = POST →
  request_data req = JObj m →
  m !! "title" = Some title → m !! "image" = Some image → m !! "key" = Some key →
  scripts cfg req generated path_id w =
    if bool_decide (generated ∈ (scripts_collection w).*1)
    then (Raise DuplicateKeyError, w)
    else
      (Ok (JObj {[ "message" := JStr "Script added";
                   "script" := JObj {[ "_id" := JStr generated; "title" := title;
                                       "image" := image; "key" := key ]} ]}, 201),
       outbox_set
         (telegram_outbox w ++
          posted cfg [Lit ("➕ *New Script Added:*" +:+ nl +:+ "`"); Val title; Lit "`"])%list
         (coll_set Scripts
            (scripts_collection w ++
             [(generated, {[ "title" := title; "image" := image; "key" := key ]})])%list
            w)).
Proof.
  intros Hadmin Hmeth Hdata Ht Hi Hk.
  assert (all_in ["title"; "image"; "key"] (JObj m) = Ok true) as Hall.
  { apply all_in_obj_present. repeat constructor; by eexists. }
  run_handler. rewrite Hmeth, Hadmin, Hdata, Hall.
  cbn [negb py_getitem]. rewrite Ht, Hi, Hk.
  unfold db_insert_one, insert_one. cbn [coll_get].
  case_bool_decide; [reflexivity|].
  by rewrite send_telegram_notification_spec.
Qed.

(** C9: for a Script payload with title, image and key, sent by an
    authenticated admin, the create is answered 201 exactly when the
    generated identifier is the [_id] of no script stored before; then the
    reply carries the payload's three values and the new identifier, and any
    later GET /api/scripts lists the scripts stored before followed by that
    same record, identifiers staying pairwise distinct. *)
Theorem create_then_list
    (cfg : config) (req : request) (generated : ObjectId) (path_id : option string)
    (w : world) (m : gmap string json) (title image key : json) :
  is_admin_session (session w) = true →
  method req = POST →
  request_data req = JObj m →
  m !! "title" = Some title → m !! "image" = Some image → m !! "key" = Some key →
  (generated ∉ (scripts_collection w).*1 →
     status_of (scripts cfg req generated path_id w).1 = 201)
  ∧ (∀ reply w',
       scripts cfg req generated path_id w = (Ok (reply, 201), w') →
       (generated ∉ (scripts_collection w).*1)
       ∧ reply = JObj {[ "message" := JStr "Script added";
                         "script" := JObj {[ "_id" := JStr generated; "title" := title;
                                             "image" := image; "key" := key ]} ]}
       ∧ (NoDup (scripts_collection w).*1 → NoDup (scripts_collection w').*1)
       ∧ ∀ req' generated' path_id',
           method req' = GET →
           scripts cfg req' generated' path_id' w'
           = (Ok (JArr ((with_str_id <$> scripts_collection w) ++
                        [JObj {[ "_id" := JStr generated; "title" := title;
                                 "image" := image; "key" := key ]}])%list, 200), w')).
Proof.
  intros Hadmin Hmeth Hdata Ht Hi Hk.
  rewrite (scripts_post_obj _ _ _ _ _ _ _ _ _ Hadmin Hmeth Hdata Ht Hi Hk).
  split.
  - intros Hfresh. by rewrite bool_decide_eq_false_2.
  - intros reply w'. case_bool_decide as Hdup; [discriminate|].
    intros [= <- <-]. split; [exact Hdup|]. split; [reflexivity|]. split.
    + intros Hnodup. cbn [scripts_collection outbox_set coll_set].
      rewrite fmap_app. apply NoDup_app. split; [exact Hnodup|]. split.
      * intros x Hx Hin. cbn in Hin. apply list_elem_of_singleton in Hin. by subst.
      * cbn. apply NoDup_singleton.
    + intros req' generated' path_id' Hget. run_handler. rewrite Hget.
      cbn [coll_get scripts_collection outbox_set coll_set].
      by rewrite fmap_app.
Qed.

Lemma create_then_list_witness :
  let w := world_of admin_session [(zero_oid, aimbot)] [] in
  let req := request_of POST (BodyJson (JObj aimbot)) in
  status_of (scripts demo_cfg req demo_oid None w).1 = 201
  ∧ scripts demo_cfg (request_of GET BodyAbsent) zero_oid None
      (scripts demo_cfg req demo_oid None w).2
    = (Ok (JArr [JObj (<["_id" := JStr zero_oid]> aimbot);
                 JObj (<["_id" := JStr demo_oid]> aimbot)], 200),
       (scripts demo_cfg req demo_oid None w).2).
Proof.
  intros w req.
  destruct (create_then_list demo_cfg req demo_oid None w aimbot
              (JStr "Aimbot") (JStr "http://x/y.png") (JStr "ABC123"))
    as [Hcreated Hlisted];
    [vm_compute; reflexivity | reflexivity | vm_compute; reflexivity
    | vm_compute; reflexivity | vm_compute; reflexivity | vm_compute; reflexivity |].
  assert (demo_oid ∉ (scripts_collection w).*1) as Hfresh.
  { cbn. rewrite list_elem_of_singleton. discriminate. }
  split; [exact (Hcreated Hfresh)|].
  destruct (scripts demo_cfg req demo_oid None w) as [[[reply code]|e] w'] eqn:Hrun;
    [|specialize (Hcreated Hfresh); discriminate].
  specialize (Hcreated Hfresh). cbn in Hcreated. subst code.
  destruct (Hlisted reply w' eq_refl) as (_ & _ & _ & Hget).
  exact (Hget (request_of GET BodyAbsent) zero_oid None eq_refl).
Defined.

(** ** Account notifications *)

Section AccountRequests.
Context (cfg : config) (req : request) (generated : ObjectId)
        (account_id : option string) (w : world).
Context (m : gmap string json) (name image username password : json).
Hypothesis Hadmin : is_admin_session (session w) = true.

(** [DELETE /api/accounts/<id>] by an admin. *)
Lemma accounts_delete :
  method req = DELETE →
  accounts cfg req generated account_id w =
    match ObjectId_new generated account_id with
    | Ok oid =>
        let r := delete_one oid (accounts_collection w) in
        if bool_decide (r.1 = 0)
        then (Ok (NotFound Accounts), coll_set Accounts r.2 w)
        else (Ok (message "Profile deleted", 200),
              outbox_set (telegram_outbox w ++ posted cfg (profile_deleted account_id))%list
                (coll_set Accounts r.2 w))
    | Raise InvalidId => (Ok (InvalidIdentifier Accounts), w)
    | Raise e => (Raise e, w)
    end.
Proof using Hadmin.
  intros Hmeth. run_handler. rewrite Hmeth, Hadmin. cbn [negb].
  destruct (ObjectId_new generated account_id) as [oid|[]]; try reflexivity.
  unfold db_delete_one. cbn [coll_get].
  destruct (delete_one oid (accounts_collection w)) as [n c'].
  cbn [fst snd]. case_bool_decide; [reflexivity|].
  by rewrite send_telegram_notification_spec.
Qed.

Hypothesis Hdata : request_data req = JObj m.
Hypothesis Hname : m !! "name" = Some name.
Hypothesis Himage : m !! "image" = Some image.
Hypothesis Husername : m !! "username" = Some username.
Hypothesis Hpassword : m !! "password" = Some password.

Lemma accounts_fields_present :
  all_in ["name"; "image"; "username"; "password"] (JObj m) = Ok true.
Proof using Hname Himage Husername Hpassword.
  apply all_in_obj_present. repeat constructor; by eexists.
Qed.

(** [POST /api/accounts] by an admin with the four fields present. *)
Lemma accounts_post_obj :
  method req = POST →
  accounts cfg req generated account_id w =
    let doc := account_doc m name image username password in
    if bool_decide (generated ∈ (accounts_collection w).*1)
    then (Raise DuplicateKeyError, w)
    else
      (Ok (JObj {[ "message" := JStr "Profile added";
                   "account" := JObj (<["_id" := JStr generated]> doc) ]}, 201),
       outbox_set (telegram_outbox w ++ posted cfg (profile_added name username))%list
         (coll_set Accounts (accounts_collection w ++ [(generated, doc)])%list w)).
Proof using Hadmin Hdata Hname Himage Husername Hpassword.
  intros Hmeth. run_handler.
  rewrite Hmeth, Hadmin, Hdata, accounts_fields_present.
  cbn [negb py_getitem py_get]. rewrite Hname, Himage, Husername, Hpassword.
  unfold db_insert_one, insert_one. cbn [coll_get].
  case_bool_decide; [reflexivity|].
  by rewrite send_telegram_notification_spec.
Qed.

(** [PUT /api/accounts/<id>] by an admin with the four fields present. *)
Lemma accounts_put_obj :
  method req = PUT →
  accounts cfg req generated account_id w =
    match ObjectId_new generated account_id with
    | Ok oid =>
        let r := update_one oid (account_doc m name image username password)
                   (accounts_collection w) in
        if bool_decide (r.1 = 0)
        then (Ok (NotFound Accounts), coll_set Accounts r.2 w)
        else (Ok (message "Profile updated", 200),
              outbox_set
                (telegram_outbox w ++ posted cfg (profile_updated name username))%list
                (coll_set Accounts r.2 w))
    | Raise InvalidId => (Ok (InvalidIdentifier Accounts), w)
    | Raise e => (Raise e, w)
    end.
Proof using Hadmin Hdata Hname Himage Husername Hpassword.
  intros Hmeth. run_handler.
  rewrite Hmeth, Hadmin, Hdata, accounts_fields_present.
  cbn [negb py_getitem py_get]. rewrite Hname, Himage, Husername, Hpassword.
  destruct (ObjectId_new generated account_id) as [oid|[]]; try reflexivity.
  unfold db_update_one. cbn [coll_get]. fold (account_doc m name image username password).
  destruct (update_one oid _ (accounts_collection w)) as [n c'].
  cbn [fst snd]. case_bool_decide; [reflexivity|].
  by rewrite send_telegram_notification_spec.
Qed.
End AccountRequests.

(** C3 (as amended): the message triggered by a successful Account create
    or update is built from the account's name and username alone; the
    message triggered by a successful delete, whatever the request body, is
    built from the path identifier alone and carries neither name nor
    username.  In all three cases the outbox and the status are the same for
    two runs that differ only in password values: those of the request body
    for a create or an update, and the stored accounts (and the whole body)
    for a delete. *)
Theorem account_notifications
    (cfg : config) (req : request) (generated : ObjectId)
    (account_id : option string) (w : world) :
  is_admin_session (session w) = true →
  (∀ (m : gmap string json) (name image username password : json),
     request_data req = JObj m →
     m !! "name" = Some name → m !! "image" = Some image →
     m !! "username" = Some username → m !! "password" = Some password →
     (method req = POST → generated ∉ (accounts_collection w).*1 →
        status_of (accounts cfg req generated account_id w).1 = 201
        ∧ telegram_outbox (accounts cfg req generated account_id w).2
          = (telegram_outbox w ++ posted cfg (profile_added name username))%list)
     ∧ (method req = PUT → ∀ oid,
          ObjectId_new generated account_id = Ok oid →
          oid ∈ (accounts_collection w).*1 →
          status_of (accounts cfg req generated account_id w).1 = 200
          ∧ telegram_outbox (accounts cfg req generated account_id w).2
            = (telegram_outbox w ++ posted cfg (profile_updated name username))%list)
     ∧ (method req = POST ∨ method req = PUT →
        ∀ (req2 : request) (m2 : gmap string json) (password2 : json)
          (stored2 : collection),
          method req2 = method req →
          request_data req2 = JObj m2 →
          (∀ k, k ≠ "password" → m2 !! k = m !! k) →
          m2 !! "password" = Some password2 →
          stored2.*1 = (accounts_collection w).*1 →
          telegram_outbox
            (accounts cfg req2 generated account_id (coll_set Accounts stored2 w)).2
          = telegram_outbox (accounts cfg req generated account_id w).2
          ∧ status_of
              (accounts cfg req2 generated account_id (coll_set Accounts stored2 w)).1
            = status_of (accounts cfg req generated account_id w).1))
  ∧ (method req = DELETE →
     (∀ oid,
        ObjectId_new generated account_id = Ok oid →
        oid ∈ (accounts_collection w).*1 →
        status_of (accounts cfg req generated account_id w).1 = 200
        ∧ telegram_outbox (accounts cfg req generated account_id w).2
          = (telegram_outbox w ++ posted cfg (profile_deleted account_id))%list)
     ∧ (∀ (req2 : request) (stored2 : collection),
          method req2 = DELETE →
          stored2.*1 = (accounts_collection w).*1 →
          telegram_outbox
            (accounts cfg req2 generated account_id (coll_set Accounts stored2 w)).2
          = telegram_outbox (accounts cfg req generated account_id w).2
          ∧ status_of
              (accounts cfg req2 generated account_id (coll_set Accounts stored2 w)).1
            = status_of (accounts cfg req generated account_id w).1)).
Proof.
  intros Hadmin. split.
  - intros m name image username password Hdata Hn Hi Hu Hp.
    split; [|split].
    + intros Hmeth Hfresh.
      rewrite (accounts_post_obj cfg req generated account_id w m name image username
                 password Hadmin Hdata Hn Hi Hu Hp Hmeth).
      cbv zeta. by rewrite bool_decide_eq_false_2.
    + intros Hmeth oid Hoid Hin.
      rewrite (accounts_put_obj cfg req generated account_id w m name image username
                 password Hadmin Hdata Hn Hi Hu Hp Hmeth), Hoid.
      cbv zeta. rewrite update_one_count, (bool_decide_eq_true_2 (oid ∈ _)) by done. done.
    + intros Hmeth req2 m2 password2 stored2 Hmeth2 Hdata2 Hsame Hp2 Hids.
      assert (is_admin_session (session (coll_set Accounts stored2 w)) = true) as Hadmin2
        by done.
      assert (m2 !! "name" = Some name) as Hn2 by by rewrite Hsame.
      assert (m2 !! "image" = Some image) as Hi2 by by rewrite Hsame.
      assert (m2 !! "username" = Some username) as Hu2 by by rewrite Hsame.
      destruct Hmeth as [Hmeth | Hmeth]; rewrite Hmeth in Hmeth2.
      * rewrite (accounts_post_obj cfg req generated account_id w m name image username
                   password Hadmin Hdata Hn Hi Hu Hp Hmeth).
        rewrite (accounts_post_obj cfg req2 generated account_id _ m2 name image username
                   password2 Hadmin2 Hdata2 Hn2 Hi2 Hu2 Hp2 Hmeth2).
        cbv zeta. cbn [accounts_collection coll_set]. rewrite Hids.
        case_bool_decide; done.
      * rewrite (accounts_put_obj cfg req generated account_id w m name image username
                   password Hadmin Hdata Hn Hi Hu Hp Hmeth).
        rewrite (accounts_put_obj cfg req2 generated account_id _ m2 name image username
                   password2 Hadmin2 Hdata2 Hn2 Hi2 Hu2 Hp2 Hmeth2).
        destruct (ObjectId_new generated account_id) as [oid|[]]; try done.
        cbv zeta. cbn [accounts_collection coll_set].
        rewrite !update_one_count, Hids. case_bool_decide; done.
  - intros Hmeth. split.
    + intros oid Hoid Hin.
      rewrite (accounts_delete cfg req generated account_id w Hadmin Hmeth), Hoid.
      cbv zeta. rewrite delete_one_count, (bool_decide_eq_true_2 (oid ∈ _)) by done. done.
    + intros req2 stored2 Hmeth2 Hids.
      assert (is_admin_session (session (coll_set Accounts stored2 w)) = true) as Hadmin2
        by done.
      rewrite (accounts_delete cfg req generated account_id w Hadmin Hmeth).
      rewrite (accounts_delete cfg req2 generated account_id _ Hadmin2 Hmeth2).
      destruct (ObjectId_new generated account_id) as [oid|[]]; try done.
      cbv zeta. cbn [accounts_collection coll_set].
      rewrite !delete_one_count, Hids. case_bool_decide; done.
Qed.

Lemma account_notifications_witness :
  let w := world_of admin_session [] [(zero_oid, alice)] in
  telegram_outbox
    (accounts demo_cfg (request_of DELETE BodyAbsent) demo_oid
       (Some "000000000000000000000000") w).2
  = [profile_deleted (Some "000000000000000000000000")]
  ∧ telegram_outbox
      (accounts demo_cfg (request_of POST (BodyJson (JObj alice))) demo_oid None w).2
    = [profile_added (JStr "alice") (JStr "al")].
Proof.
  intros w. split.
  - destruct (account_notifications demo_cfg (request_of DELETE BodyAbsent) demo_oid
                (Some "000000000000000000000000") w) as [_ Hdelete];
      [vm_compute; reflexivity|].
    destruct (Hdelete eq_refl) as [Hsent _].
    destruct (Hsent zero_oid) as [_ ->];
      [vm_compute; reflexivity | cbn; apply list_elem_of_here | reflexivity].
  - destruct (account_notifications demo_cfg (request_of POST (BodyJson (JObj alice)))
                demo_oid None w) as [Hbody _]; [vm_compute; reflexivity|].
    destruct (Hbody alice (JStr "alice") (JStr "a.png") (JStr "al") (JStr "s3cret"))
      as [Hcreate _];
      [vm_compute; reflexivity | vm_compute; reflexivity | vm_compute; reflexivity
      | vm_compute; reflexivity | vm_compute; reflexivity |].
    assert (demo_oid ∉ (accounts_collection w).*1) as Hfresh
      by (cbn; rewrite list_elem_of_singleton; discriminate).
    destruct (Hcreate eq_refl Hfresh) as [_ ->]. reflexivity.
Defined.

(** C3 (as stated) fails for delete: the message of a successful delete
    holds the path identifier only; the name and the username of the deleted
    account do not occur in its text. *)
Lemma delete_notification_omits_name :
  let w := world_of admin_session [] [(zero_oid, alice)] in
  let out := accounts demo_cfg (request_of DELETE BodyAbsent) demo_oid
               (Some "000000000000000000000000") w in
  alice !! "name" = Some (JStr "alice")
  ∧ alice !! "username" = Some (JStr "al")
  ∧ status_of out.1 = 200
  ∧ telegram_outbox out.2 = [profile_deleted (Some "000000000000000000000000")]
  ∧ str_contains "alice" <$> render (profile_deleted (Some "000000000000000000000000"))
    = Some false
  ∧ str_contains "al" <$> render (profile_deleted (Some "000000000000000000000000"))
    = Some false.
Proof. vm_compute. repeat split. Qed.

(** ** Bodies that carry no JSON *)

(** The handlers read a request through its method, its data and its remote
    address only. *)
Lemma handlers_same_data (cfg : config) (req req' : request) :
  method req' = method req →
  request_data req' = request_data req →
  remote_addr req' = remote_addr req →
  admin_login cfg req' = admin_login cfg req
  ∧ scripts cfg req' = scripts cfg req
  ∧ accounts cfg req' = accounts cfg req.
Proof.
  intros Hmeth Hdata Haddr. run_handler. by rewrite Hmeth, Hdata, Haddr.
Qed.

(** C10 (as amended): on a login, a script create or update and an account
    create or update whose body is absent or is not valid JSON, the handler
    does exactly what it does on the empty object [{}]: a login is answered
    200 or 401, and a create or update by an authenticated admin is answered
    ValidationError (400) with the world unchanged. *)
Theorem body_without_json
    (cfg : config) (req : request) (generated : ObjectId)
    (path_id : option string) (w : world) :
  (req_body req = BodyAbsent ∨ ∃ raw, req_body req = BodyInvalid raw) →
  let req0 := with_body (BodyJson (JObj ∅)) req in
  admin_login cfg req w = admin_login cfg req0 w
  ∧ (status_of (admin_login cfg req w).1 = 200 ∨ status_of (admin_login cfg req w).1 = 401)
  ∧ ∀ h : handle,
      view h cfg req generated path_id w = view h cfg req0 generated path_id w
      ∧ (is_admin_session (session w) = true →
         method req = POST ∨ method req = PUT →
         view h cfg req generated path_id w = (Ok ValidationError, w)).
Proof.
  intros Hbody req0.
  assert (request_data req = JObj ∅) as Hdata.
  { apply request_data_no_json. by destruct Hbody as [-> | [raw ->]]. }
  assert (request_data req0 = request_data req) as Hdata0.
  { rewrite Hdata. by apply request_data_obj. }
  destruct (handlers_same_data cfg req req0 eq_refl Hdata0 eq_refl)
    as (Hlogin & Hscripts & Haccounts).
  split; [by rewrite Hlogin|]. split.
  - rewrite (admin_login_obj _ _ _ _ Hdata).
    destruct (password_matches _ _); [left | right]; reflexivity.
  - intros h. split.
    + destruct h; cbn [view]; [by rewrite Hscripts | by rewrite Haccounts].
    + intros Hadmin Hmeth.
      assert (all_in (required_fields h) (JObj ∅) = Ok false) as Hall.
      { destruct h; reflexivity. }
      destruct h; cbn [view required_fields] in *; run_handler;
        destruct Hmeth as [-> | ->]; rewrite Hadmin, Hdata, Hall; reflexivity.
Qed.

Lemma body_without_json_witness :
  let w := world_of admin_session [(zero_oid, aimbot)] [] in
  scripts demo_cfg (request_of PUT (BodyInvalid "{title:")) demo_oid
    (Some "000000000000000000000000") w
  = (Ok ValidationError, w).
Proof.
  intros w.
  destruct (body_without_json demo_cfg (request_of PUT (BodyInvalid "{title:")) demo_oid
              (Some "000000000000000000000000") w) as (_ & _ & Hview);
    [right; by eexists|].
  destruct (Hview Scripts) as [_ H400].
  apply H400; [vm_compute; reflexivity | right; reflexivity].
Defined.

(** C10 (as stated) fails without a session: the admin check comes before
    the body is read, so a create with no body is answered Unauthorized
    (401), not ValidationError (400). *)
Lemma create_without_session_is_401 :
  let w := world_of ∅ [] [] in
  scripts demo_cfg (request_of POST BodyAbsent) demo_oid None w = (Ok Unauthorized, w)
  ∧ accounts demo_cfg (request_of POST BodyAbsent) demo_oid None w = (Ok Unauthorized, w)
  ∧ status_of (Ok Unauthorized) = 401.
Proof. vm_compute. repeat split. Qed.

(** ** Session guard *)

(** Logout clears the session whatever it held, so the caller is anonymous
    afterwards; the collections and the outbox are untouched. *)
Theorem logout_clears_session (w : world) :
  logout w = (Ok (JObj {[ "success" := JBool true ]}, 200), session_set ∅ w)
  ∧ is_admin_session (session (logout w).2) = false
  ∧ fst (check_auth (logout w).2) = Ok (JObj {[ "authenticated" := JBool false ]}, 200).
Proof. repeat split. Qed.

(** Without an admin session every request to the scripts and accounts
    routes other than GET is answered Unauthorized (401) before the body is
    read, and nothing changes. *)
Theorem mutation_requires_admin
    (h : handle) (cfg : config) (req : request) (generated : ObjectId)
    (path_id : option string) (w : world) :
  is_admin_session (session w) = false →
  method req ≠ GET →
  view h cfg req generated path_id w = (Ok Unauthorized, w).
Proof.
  intros Hanon Hmeth. destruct h; cbn [view]; run_handler;
    destruct (method req); try done; by rewrite Hanon.
Qed.

Lemma mutation_requires_admin_witness :
  let w := world_of ∅ [(zero_oid, aimbot)] [] in
  view Scripts demo_cfg (request_of POST (BodyJson (JObj aimbot))) demo_oid None w
  = (Ok Unauthorized, w).
Proof.
  intros w.
  apply (mutation_requires_admin Scripts demo_cfg
           (request_of POST (BodyJson (JObj aimbot))) demo_oid None w);
    [vm_compute; reflexivity | discriminate].
Defined.

(** * Further properties of the handlers *)

(** ** Store operations *)

Lemma delete_one_absent (oid : ObjectId) (c : collection) :
  oid ∉ c.*1 → delete_one oid c = (0, c).
Proof.
  induction c as [|[i d] c IH]; [done|].
  cbn [delete_one fmap list_fmap fst]. intros Hnot.
  apply not_elem_of_cons in Hnot as [Hne Hnot].
  rewrite bool_decide_eq_false_2 by done. by rewrite IH.
Qed.

Lemma update_one_zero (oid : ObjectId) (fields : gmap string json) (c c' : collection) :
  update_one oid fields c = (0, c') → c' = c.
Proof.
  intros Hu. pose proof (update_one_count oid fields c) as Hn. rewrite Hu in Hn.
  cbn [fst] in Hn. case_bool_decide as Hin; [done|].
  rewrite (update_one_absent _ _ _ Hin) in Hu. by inversion Hu.
Qed.

Lemma delete_one_zero (oid : ObjectId) (c c' : collection) :
  delete_one oid c = (0, c') → c' = c.
Proof.
  intros Hu. pose proof (delete_one_count oid c) as Hn. rewrite Hu in Hn.
  cbn [fst] in Hn. case_bool_decide as Hin; [done|].
  rewrite (delete_one_absent _ _ Hin) in Hu. by inversion Hu.
Qed.

Lemma update_one_keeps_ids (oid : ObjectId) (fields : gmap string json) (c : collection) :
  (update_one oid fields c).2.*1 = c.*1.
Proof.
  induction c as [|[i d] c IH]; [done|].
  cbn [update_one]. case_bool_decide; [done|].
  destruct (update_one oid fields c) as [n c'] eqn:Hu. cbn in *. by rewrite IH.
Qed.

Lemma update_one_overwritten (oid : ObjectId) (fields : gmap string json) (c : collection) :
  NoDup c.*1 → (update_one oid fields c).2 = overwritten oid fields c.
Proof.
  unfold overwritten. induction c as [|[i d] c IH]; [done|].
  cbn [update_one fmap list_fmap fst snd]. intros Hnd.
  apply NoDup_cons in Hnd as [Hnot Hnd]. case_bool_decide as Heq.
  - subst i. cbn [snd]. f_equal.
    rewrite <- (list_fmap_id c) at 1. apply list_fmap_ext.
    intros k [j e] Hk. cbn. rewrite bool_decide_eq_false_2; [done|].
    intros ->. apply Hnot. apply list_elem_of_fmap. exists (oid, e).
    split; [done|]. by eapply list_elem_of_lookup_2.
  - destruct (update_one oid fields c) as [n c'] eqn:Hu. cbn [snd] in *.
    by rewrite IH.
Qed.

Lemma without_absent (oid : ObjectId) (c : collection) :
  oid ∉ c.*1 → without oid c = c.
Proof.
  unfold without. induction c as [|[i d] c IH]; [done|].
  cbn [fmap list_fmap fst]. intros Hnot.
  apply not_elem_of_cons in Hnot as [Hne Hnot].
  rewrite filter_cons_True by (cbn; congruence). by rewrite IH.
Qed.

Lemma delete_one_without (oid : ObjectId) (c : collection) :
  NoDup c.*1 → (delete_one oid c).2 = without oid c.
Proof.
  induction c as [|[i d] c IH]; [done|].
  cbn [delete_one fmap list_fmap fst snd]. intros Hnd.
  apply NoDup_cons in Hnd as [Hnot Hnd]. unfold without in *. case_bool_decide as Heq.
  - subst i. cbn [snd]. rewrite filter_cons_False by (cbn; tauto).
    symmetry. by apply without_absent.
  - rewrite filter_cons_True by (cbn; congruence).
    destruct (delete_one oid c) as [n c'] eqn:Hu. cbn [snd] in *. by rewrite IH.
Qed.

Lemma without_ids (oid : ObjectId) (c : collection) :
  (without oid c).*1 = filter (λ i, i ≠ oid) c.*1.
Proof.
  unfold without. induction c as [|[i d] c IH]; [done|].
  cbn [fmap list_fmap fst]. destruct (decide (i = oid)) as [->|Hne].
  - rewrite !filter_cons_False by (cbn; tauto). exact IH.
  - rewrite !filter_cons_True by (cbn; congruence). cbn. by rewrite <- IH.
Qed.

Lemma delete_one_ids_sublist (oid : ObjectId) (c : collection) :
  (delete_one oid c).2.*1 `sublist_of` c.*1.
Proof.
  induction c as [|[i d] c IH]; [done|].
  cbn [delete_one]. case_bool_decide.
  - cbn. by apply sublist_cons.
  - destruct (delete_one oid c) as [n c'] eqn:Hu. cbn in *. by apply sublist_skip.
Qed.

(** ** What a request can change *)

Lemma update_one_cases (oid : ObjectId) (fields : gmap string json) (c : collection) :
  ((oid ∈ c.*1) ∧ ∃ c', update_one oid fields c = (1, c'))
  ∨ ((oid ∉ c.*1) ∧ update_one oid fields c = (0, c)).
Proof.
  destruct (decide (oid ∈ c.*1)) as [Hin|Hin]; [left | right]; split; try done.
  - pose proof (update_one_count oid fields c) as Hn.
    rewrite bool_decide_eq_true_2 in Hn by done.
    destruct (update_one oid fields c) as [n c']. cbn in Hn. subst n. by eexists.
  - by apply update_one_absent.
Qed.

Lemma delete_one_cases (oid : ObjectId) (c : collection) :
  ((oid ∈ c.*1) ∧ ∃ c', delete_one oid c = (1, c'))
  ∨ ((oid ∉ c.*1) ∧ delete_one oid c = (0, c)).
Proof.
  destruct (decide (oid ∈ c.*1)) as [Hin|Hin]; [left | right]; split; try done.
  - pose proof (delete_one_count oid c) as Hn.
    rewrite bool_decide_eq_true_2 in Hn by done.
    destruct (delete_one oid c) as [n c']. cbn in Hn. subst n. by eexists.
  - by apply delete_one_absent.
Qed.

Lemma outbox_coll_set (h : handle) (c : collection) (w : world) :
  telegram_outbox (coll_set h c w) = telegram_outbox w.
Proof. by destruct h. Qed.

Ltac branch :=
  cbn [negb fst snd];
  try (by (constructor; [intros ?; discriminate | intros ? [?|?]; congruence])).

Ltac store_step h :=
  unfold db_update_one, db_delete_one;
  lazymatch goal with
  | |- context [update_one ?oid ?f (coll_get h ?w)] =>
      destruct (update_one_cases oid f (coll_get h w)) as [[Hin [c' Hu]]|[Hin Hu]];
      rewrite Hu; cbn [fst snd bool_decide decide_rel];
      [ rewrite bool_decide_eq_false_2 by done;
        rewrite send_telegram_notification_spec, outbox_coll_set; cbn [fst snd];
        replace c' with (update_one oid f (coll_get h w)).2 by (by rewrite Hu);
        by apply (Updated h)
      | rewrite bool_decide_eq_true_2 by done; rewrite coll_set_get; branch ]
  | |- context [delete_one ?oid (coll_get h ?w)] =>
      destruct (delete_one_cases oid (coll_get h w)) as [[Hin [c' Hu]]|[Hin Hu]];
      rewrite Hu; cbn [fst snd];
      [ rewrite bool_decide_eq_false_2 by done;
        rewrite send_telegram_notification_spec, outbox_coll_set; cbn [fst snd];
        replace c' with (delete_one oid (coll_get h w)).2 by (by rewrite Hu);
        by apply (Deleted h)
      | rewrite bool_decide_eq_true_2 by done; rewrite coll_set_get; branch ]
  end.

Lemma view_effect (h : handle) (cfg : config) (req : request) (generated : ObjectId)
    (path_id : option string) (w : world) :
  effect_of h cfg req generated w
    (view h cfg req generated path_id w).1 (view h cfg req generated path_id w).2.
Proof.
  destruct h; cbn [view]; run_handler.
  - destruct (method req) eqn:Hmeth; destruct (is_admin_session (session w)); branch.
    + destruct (all_in _ _) as [[]|]; branch.
      destruct (py_getitem _ "title") as [t|]; branch.
      destruct (py_getitem _ "image") as [i|]; branch.
      destruct (py_getitem _ "key") as [k|]; branch.
      unfold db_insert_one, insert_one. case_bool_decide; branch.
      rewrite send_telegram_notification_spec, outbox_coll_set. cbn [fst snd].
      by apply (Inserted Scripts).
    + destruct (all_in _ _) as [[]|]; branch.
      destruct (ObjectId_new _ _) as [oid|[]]; branch.
      destruct (py_getitem _ "title") as [t|[]]; branch.
      destruct (py_getitem _ "image") as [i|[]]; branch.
      destruct (py_getitem _ "key") as [k|[]]; branch.
      store_step Scripts.
    + destruct (ObjectId_new _ _) as [oid|[]]; branch.
      store_step Scripts.
  - destruct (method req) eqn:Hmeth; destruct (is_admin_session (session w)); branch.
    + destruct (all_in _ _) as [[]|]; branch.
      destruct (py_get _ "accentColor" _) as [a|]; branch.
      destruct (py_getitem _ "name") as [n|]; branch.
      destruct (py_getitem _ "image") as [i|]; branch.
      destruct (py_getitem _ "username") as [u|]; branch.
      destruct (py_getitem _ "password") as [p|]; branch.
      unfold db_insert_one, insert_one. case_bool_decide; branch.
      rewrite send_telegram_notification_spec, outbox_coll_set. cbn [fst snd].
      by apply (Inserted Accounts).
    + destruct (all_in _ _) as [[]|]; branch.
      destruct (py_getitem _ "name") as [n|]; branch.
      destruct (py_getitem _ "image") as [i|]; branch.
      destruct (py_getitem _ "username") as [u|]; branch.
      destruct (py_getitem _ "password") as [p|]; branch.
      destruct (py_get _ "accentColor" _) as [a|]; branch.
      destruct (ObjectId_new _ _) as [oid|[]]; branch.
      store_step Accounts.
    + destruct (ObjectId_new _ _) as [oid|[]]; branch.
      store_step Accounts.
Qed.

Lemma delete_one_length (oid : ObjectId) (c : collection) :
  length (delete_one oid c).2 + (delete_one oid c).1 = length c.
Proof.
  induction c as [|[i d] c IH]; [done|].
  cbn [delete_one]. case_bool_decide; cbn; [lia|].
  destruct (delete_one oid c) as [n c']. cbn in *. lia.
Qed.

(** A request to the scripts or accounts routes that is not answered 200 or
    201 - every 400, 401, 404, 405 and every uncaught exception - leaves the
    world exactly as it was: no document written, nothing posted. *)
Theorem failed_request_changes_nothing
    (h : handle) (cfg : config) (req : request) (generated : ObjectId)
    (path_id : option string) (w : world) :
  status_of (view h cfg req generated path_id w).1 ≠ 200 →
  status_of (view h cfg req generated path_id w).1 ≠ 201 →
  (view h cfg req generated path_id w).2 = w.
Proof.
  intros H200 H201.
  destruct (view_effect h cfg req generated path_id w); cbn in *; done.
Qed.

(** A view never touches the session, nor the collection of the other
    resource. *)
Theorem view_frame
    (h : handle) (cfg : config) (req : request) (generated : ObjectId)
    (path_id : option string) (w : world) :
  session (view h cfg req generated path_id w).2 = session w
  ∧ coll_get (other h) (view h cfg req generated path_id w).2 = coll_get (other h) w.
Proof.
  destruct (view_effect h cfg req generated path_id w); by destruct h.
Qed.

(** If the identifiers of a collection are pairwise distinct, they still
    are after any request. *)
Theorem ids_stay_distinct
    (h : handle) (cfg : config) (req : request) (generated : ObjectId)
    (path_id : option string) (w : world) :
  NoDup (coll_get h w).*1 →
  NoDup (coll_get h (view h cfg req generated path_id w).2).*1.
Proof.
  intros Hnd.
  destruct (view_effect h cfg req generated path_id w) as [| ? ? ? ? Hfresh | |];
    [done | | |].
  - replace (coll_get h _) with (coll_get h w ++ [(generated, doc)])%list by by destruct h.
    rewrite fmap_app. apply NoDup_app. split; [done|]. split.
    + intros x Hx Hin. cbn in Hin. apply list_elem_of_singleton in Hin. by subst.
    + cbn. apply NoDup_singleton.
  - replace (coll_get h _) with (update_one oid fields (coll_get h w)).2 by by destruct h.
    by rewrite update_one_keeps_ids.
  - replace (coll_get h _) with (delete_one oid (coll_get h w)).2 by by destruct h.
    eapply sublist_NoDup; [exact Hnd | apply delete_one_ids_sublist].
Qed.

(** The number of documents grows by one on a 201, shrinks by one on a
    successful DELETE, and is unchanged by every other request. *)
Theorem collection_size
    (h : handle) (cfg : config) (req : request) (generated : ObjectId)
    (path_id : option string) (w : world) :
  let out := view h cfg req generated path_id w in
  let before := length (coll_get h w) in
  let after := length (coll_get h out.2) in
  (status_of out.1 = 201 → after = S before)
  ∧ (method req = DELETE → status_of out.1 = 200 → S after = before)
  ∧ (status_of out.1 ≠ 201 → ¬ (method req = DELETE ∧ status_of out.1 = 200) →
     after = before).
Proof.
  cbv zeta.
  destruct (view_effect h cfg req generated path_id w) as [r Hr1 Hr2 | | |].
  - split; [|split]; try done.
    + intros Hs. destruct r as [[reply code]|]; cbn in Hs; [subst|done]. by destruct (Hr1 reply).
    + intros Hm Hs. destruct r as [[reply code]|]; cbn in Hs; [subst|done].
      destruct (Hr2 reply); auto.
  - replace (coll_get h _) with (coll_get h w ++ [(generated, doc)])%list by by destruct h.
    rewrite length_app. cbn. split; [lia|]. split; [congruence | done].
  - replace (coll_get h _) with (update_one oid fields (coll_get h w)).2 by by destruct h.
    assert (length (update_one oid fields (coll_get h w)).2 = length (coll_get h w)) as ->.
    { rewrite <- (length_fmap fst), update_one_keeps_ids. apply length_fmap. }
    cbn. split; [done|]. split; [congruence | done].
  - replace (coll_get h _) with (delete_one oid (coll_get h w)).2 by by destruct h.
    pose proof (delete_one_length oid (coll_get h w)) as Hlen.
    rewrite delete_one_count, bool_decide_eq_true_2 in Hlen by done.
    cbn. split; [done|]. split; [lia|]. intros _ Hno. exfalso. apply Hno. done.
Qed.

(** ** Deleting, updating and creating *)

(** [DELETE] by an admin, on either collection. *)
Lemma view_delete (h : handle) (cfg : config) (req : request) (generated : ObjectId)
    (path_id : option string) (w : world) :
  is_admin_session (session w) = true →
  method req = DELETE →
  view h cfg req generated path_id w =
    match ObjectId_new generated path_id with
    | Ok oid =>
        let r := delete_one oid (coll_get h w) in
        if bool_decide (r.1 = 0)
        then (Ok (NotFound h), coll_set h r.2 w)
        else (Ok (deleted_reply h),
              outbox_set (telegram_outbox w ++ posted cfg (record_deleted h path_id))%list
                (coll_set h r.2 w))
    | Raise InvalidId => (Ok (InvalidIdentifier h), w)
    | Raise e => (Raise e, w)
    end.
Proof.
  intros Hadmin Hmeth. destruct h; cbn [view].
  - run_handler. rewrite Hmeth, Hadmin. cbn [negb].
    destruct (ObjectId_new generated path_id) as [oid|[]]; try reflexivity.
    unfold db_delete_one.
    destruct (delete_one oid (coll_get Scripts w)) as [n c'].
    cbn [fst snd]. case_bool_decide; [reflexivity|].
    by rewrite send_telegram_notification_spec, outbox_coll_set.
  - by apply accounts_delete.
Qed.

(** [PUT /api/scripts/<id>] by an admin with the three fields present. *)
Lemma scripts_put_obj
    (cfg : config) (req : request) (generated : ObjectId) (script_id : option string)
    (w : world) (m : gmap string json) (title image key : json) :
  is_admin_session (session w) = true →
  method req = PUT →
  request_data req = JObj m →
  m !! "title" = Some title → m !! "image" = Some image → m !! "key" = Some key →
  scripts cfg req generated script_id w =
    match ObjectId_new generated script_id with
    | Ok oid =>
        let r := update_one oid {[ "title" := title; "image" := image; "key" := key ]}
                   (scripts_collection w) in
        if bool_decide (r.1 = 0)
        then (Ok (NotFound Scripts), coll_set Scripts r.2 w)
        else (Ok (message "Script updated", 200),
              outbox_set
                (telegram_outbox w ++ posted cfg (script_updated script_id title))%list
                (coll_set Scripts r.2 w))
    | Raise InvalidId => (Ok (InvalidIdentifier Scripts), w)
    | Raise e => (Raise e, w)
    end.
Proof.
  intros Hadmin Hmeth Hdata Ht Hi Hk.
  assert (all_in ["title"; "image"; "key"] (JObj m) = Ok true) as Hall.
  { apply all_in_obj_present. repeat constructor; by eexists. }
  run_handler. rewrite Hmeth, Hadmin, Hdata, Hall.
  cbn [negb py_getitem]. rewrite Ht, Hi, Hk.
  destruct (ObjectId_new generated script_id) as [oid|[]]; try reflexivity.
  unfold db_update_one. cbn [coll_get].
  destruct (update_one oid _ (scripts_collection w)) as [n c'].
  cbn [fst snd]. case_bool_decide; [reflexivity|].
  by rewrite send_telegram_notification_spec.
Qed.

Lemma without_not_elem (oid : ObjectId) (c : collection) : oid ∉ (without oid c).*1.
Proof.
  rewrite without_ids. intros Hin. apply list_elem_of_filter in Hin as [Hne _]. done.
Qed.

(** A successful delete removes the document with that identifier and no
    other; the identifier is gone afterwards, and deleting it again is
    answered NotFound (404). *)
Theorem delete_then_gone
    (h : handle) (cfg : config) (req : request) (generated : ObjectId)
    (s : string) (w : world) :
  is_admin_session (session w) = true →
  method req = DELETE →
  valid_oid s = true →
  str_map hex_lower s ∈ (coll_get h w).*1 →
  NoDup (coll_get h w).*1 →
  ∃ w', view h cfg req generated (Some s) w = (Ok (deleted_reply h), w')
    ∧ coll_get h w' = without (str_map hex_lower s) (coll_get h w)
    ∧ S (length (coll_get h w')) = length (coll_get h w)
    ∧ (str_map hex_lower s ∉ (coll_get h w').*1)
    ∧ ∀ req' generated',
        method req' = DELETE →
        view h cfg req' generated' (Some s) w' = (Ok (NotFound h), w').
Proof.
  intros Hadmin Hmeth Hs Hin Hnd.
  rewrite (view_delete h cfg req generated (Some s) w Hadmin Hmeth).
  rewrite (ObjectId_new_valid _ _ Hs). cbv zeta.
  pose proof (delete_one_length (str_map hex_lower s) (coll_get h w)) as Hlen.
  pose proof (delete_one_count (str_map hex_lower s) (coll_get h w)) as Hcnt.
  rewrite (bool_decide_eq_true_2 _ Hin) in Hcnt. rewrite Hcnt in *.
  rewrite bool_decide_eq_false_2 by done.
  rewrite (delete_one_without _ _ Hnd) in *.
  eexists. split; [reflexivity|].
  assert (∀ c o, coll_get h (outbox_set o (coll_set h c w)) = c) as Hget
    by (intros; by destruct h).
  rewrite Hget. split; [done|]. split; [lia|]. split; [apply without_not_elem|].
  intros req' generated' Hmeth'.
  rewrite view_delete; [|by destruct h | done].
  rewrite (ObjectId_new_valid _ _ Hs). cbv zeta. rewrite Hget.
  rewrite (delete_one_absent _ _ (without_not_elem _ _)). cbn [fst snd].
  rewrite bool_decide_eq_true_2 by done.
  f_equal. rewrite <- (Hget (without (str_map hex_lower s) (coll_get h w))
                         (telegram_outbox w ++ posted cfg (record_deleted h (Some s)))%list) at 1.
  apply coll_set_get.
Qed.

Lemma overwritten_idemp (oid : ObjectId) (fields : gmap string json) (c : collection) :
  overwritten oid fields (overwritten oid fields c) = overwritten oid fields c.
Proof.
  unfold overwritten. rewrite <- list_fmap_compose. apply list_fmap_ext.
  intros k [i d] _. cbn. destruct (decide (i = oid)) as [->|Hne].
  - rewrite (bool_decide_eq_true_2 (oid = oid)) by done. cbn.
    rewrite (bool_decide_eq_true_2 (oid = oid)) by done.
    by rewrite (assoc_L (∪)), (idemp_L (∪)).
  - rewrite (bool_decide_eq_false_2 (i = oid)) by done. cbn.
    by rewrite (bool_decide_eq_false_2 (i = oid)).
Qed.

Lemma overwritten_ids (oid : ObjectId) (fields : gmap string json) (c : collection) :
  (overwritten oid fields c).*1 = c.*1.
Proof.
  unfold overwritten. rewrite <- list_fmap_compose. apply list_fmap_ext.
  intros k [i d] _. cbn. by case_bool_decide.
Qed.

Lemma overwritten_lookup (oid : ObjectId) (fields : gmap string json) (c : collection)
    (n : nat) (i : ObjectId) (d : gmap string json) :
  c !! n = Some (i, d) →
  overwritten oid fields c !! n
  = Some (if bool_decide (i = oid) then (i, fields ∪ d) else (i, d)).
Proof. intros Hn. unfold overwritten. by rewrite list_lookup_fmap, Hn. Qed.

(** A successful script update overwrites title, image and key of the one
    matching document and keeps its other fields, the other documents and
    the order; sending the same update again changes nothing more. *)
Theorem update_overwrites
    (cfg : config) (req : request) (generated : ObjectId) (s : string)
    (w : world) (m : gmap string json) (title image key : json) :
  is_admin_session (session w) = true →
  method req = PUT →
  request_data req = JObj m →
  m !! "title" = Some title → m !! "image" = Some image → m !! "key" = Some key →
  valid_oid s = true →
  str_map hex_lower s ∈ (scripts_collection w).*1 →
  NoDup (scripts_collection w).*1 →
  let fields : gmap string json :=
    {[ "title" := title; "image" := image; "key" := key ]} in
  ∃ w', scripts cfg req generated (Some s) w = (Ok (message "Script updated", 200), w')
    ∧ scripts_collection w'
      = overwritten (str_map hex_lower s) fields (scripts_collection w)
    ∧ (∀ n i d, scripts_collection w !! n = Some (i, d) →
         scripts_collection w' !! n
         = Some (if bool_decide (i = str_map hex_lower s) then (i, fields ∪ d) else (i, d)))
    ∧ (∀ generated', scripts_collection (scripts cfg req generated' (Some s) w').2
                     = scripts_collection w').
Proof.
  intros Hadmin Hmeth Hdata Ht Hi Hk Hs Hin Hnd fields.
  rewrite (scripts_put_obj _ _ _ _ _ _ _ _ _ Hadmin Hmeth Hdata Ht Hi Hk).
  rewrite (ObjectId_new_valid _ _ Hs). cbv zeta.
  rewrite update_one_count, (bool_decide_eq_true_2 _ Hin).
  rewrite bool_decide_eq_false_2 by done.
  rewrite (update_one_overwritten _ _ _ Hnd). fold fields.
  eexists. split; [reflexivity|]. cbn [scripts_collection outbox_set coll_set].
  split; [done|]. split; [intros n i d Hn; by apply overwritten_lookup|].
  intros generated'.
  rewrite (scripts_put_obj cfg req generated' (Some s) _ m title image key);
    try done.
  rewrite (ObjectId_new_valid _ _ Hs). cbv zeta.
  cbn [scripts_collection outbox_set coll_set].
  rewrite update_one_count, overwritten_ids, (bool_decide_eq_true_2 _ Hin).
  rewrite bool_decide_eq_false_2 by done.
  cbn [snd scripts_collection outbox_set coll_set]. fold fields.
  rewrite update_one_overwritten by by rewrite overwritten_ids.
  apply overwritten_idemp.
Qed.

Lemma account_doc_lookup (m : gmap string json) (name image username password : json) :
  let doc := account_doc m name image username password in
  doc !! "name" = Some name ∧ doc !! "image" = Some image
  ∧ doc !! "username" = Some username ∧ doc !! "password" = Some password
  ∧ doc !! "accentColor" = Some (default (JStr "#0ea5e9") (m !! "accentColor"))
  ∧ ∀ k, k ∉ ["name"; "image"; "username"; "password"; "accentColor"] → doc !! k = None.
Proof.
  cbv zeta. unfold account_doc. repeat split; try by simplify_map_eq.
  intros k Hk. repeat (apply not_elem_of_cons in Hk as [? Hk]).
  by simplify_map_eq.
Qed.

(** A successful account update stores the new name, image, username and
    password as sent; [accentColor] becomes the one sent or, when the body
    has none, ["#0ea5e9"] whatever was stored; other fields are kept. *)
Theorem account_update_replaces_profile
    (cfg : config) (req : request) (generated : ObjectId) (s : string)
    (w : world) (m : gmap string json) (name image username password : json) :
  is_admin_session (session w) = true →
  method req = PUT →
  request_data req = JObj m →
  m !! "name" = Some name → m !! "image" = Some image →
  m !! "username" = Some username → m !! "password" = Some password →
  valid_oid s = true →
  str_map hex_lower s ∈ (accounts_collection w).*1 →
  NoDup (accounts_collection w).*1 →
  ∃ w', accounts cfg req generated (Some s) w = (Ok (message "Profile updated", 200), w')
    ∧ accounts_collection w'
      = overwritten (str_map hex_lower s) (account_doc m name image username password)
          (accounts_collection w)
    ∧ ∀ n old, accounts_collection w !! n = Some (str_map hex_lower s, old) →
        ∃ new, accounts_collection w' !! n = Some (str_map hex_lower s, new)
          ∧ new !! "name" = Some name ∧ new !! "image" = Some image
          ∧ new !! "username" = Some username ∧ new !! "password" = Some password
          ∧ new !! "accentColor" = Some (default (JStr "#0ea5e9") (m !! "accentColor"))
          ∧ ∀ k, k ∉ ["name"; "image"; "username"; "password"; "accentColor"] →
                 new !! k = old !! k.
Proof.
  intros Hadmin Hmeth Hdata Hn Hi Hu Hp Hs Hin Hnd.
  rewrite (accounts_put_obj cfg req generated (Some s) w m name image username password
             Hadmin Hdata Hn Hi Hu Hp Hmeth).
  rewrite (ObjectId_new_valid _ _ Hs). cbv zeta.
  rewrite update_one_count, (bool_decide_eq_true_2 _ Hin).
  rewrite bool_decide_eq_false_2 by done.
  rewrite (update_one_overwritten _ _ _ Hnd).
  eexists. split; [reflexivity|]. cbn [accounts_collection outbox_set coll_set].
  split; [done|]. intros n old Hold.
  eexists. split.
  { rewrite (overwritten_lookup _ _ _ _ _ _ Hold). by rewrite bool_decide_eq_true_2. }
  destruct (account_doc_lookup m name image username password)
    as (H1 & H2 & H3 & H4 & H5 & H6).
  repeat split; try (by apply lookup_union_Some_l).
  intros k Hk. by rewrite lookup_union_r by by apply H6.
Qed.

Lemma delete_one_app_fresh (oid : ObjectId) (d : gmap string json) (c : collection) :
  oid ∉ c.*1 → delete_one oid (c ++ [(oid, d)])%list = (1, c).
Proof.
  induction c as [|[i e] c IH]; cbn [delete_one app fmap list_fmap fst]; intros Hnot.
  - by rewrite bool_decide_eq_true_2.
  - apply not_elem_of_cons in Hnot as [Hne Hnot].
    rewrite bool_decide_eq_false_2 by done. by rewrite IH.
Qed.

(** Creating a script and then deleting it by the identifier it was given
    brings the scripts collection back to what it was. *)
Theorem create_then_delete_restores
    (cfg : config) (req : request) (generated : ObjectId) (path_id : option string)
    (w : world) (m : gmap string json) (title image key : json) :
  is_admin_session (session w) = true →
  method req = POST →
  request_data req = JObj m →
  m !! "title" = Some title → m !! "image" = Some image → m !! "key" = Some key →
  generated ∉ (scripts_collection w).*1 →
  valid_oid generated = true →
  str_map hex_lower generated = generated →
  ∀ req' generated',
    method req' = DELETE →
    let created := (scripts cfg req generated path_id w).2 in
    let deleted := scripts cfg req' generated' (Some generated) created in
    deleted.1 = Ok (message "Script deleted", 200)
    ∧ scripts_collection deleted.2 = scripts_collection w
    ∧ accounts_collection deleted.2 = accounts_collection w
    ∧ session deleted.2 = session w.
Proof.
  intros Hadmin Hmeth Hdata Ht Hi Hk Hfresh Hvalid Hcanon req' generated' Hmeth'.
  cbv zeta.
  rewrite (scripts_post_obj _ _ _ _ _ _ _ _ _ Hadmin Hmeth Hdata Ht Hi Hk).
  rewrite bool_decide_eq_false_2 by done. cbn [snd].
  rewrite (view_delete Scripts cfg req' generated' (Some generated)); [|done|done].
  rewrite (ObjectId_new_valid _ _ Hvalid), Hcanon. cbv zeta.
  cbn [coll_get scripts_collection outbox_set coll_set].
  rewrite (delete_one_app_fresh _ _ _ Hfresh). cbn [fst snd].
  by rewrite bool_decide_eq_false_2.
Qed.

(** A created account is stored with the password as sent and with
    [accentColor] defaulting to ["#0ea5e9"]; the reply and every later
    listing by an admin return the stored document, password included, with
    its identifier as a string. *)
Theorem account_create_then_list
    (cfg : config) (req : request) (generated : ObjectId) (path_id : option string)
    (w : world) (m : gmap string json) (name image username password : json) :
  is_admin_session (session w) = true →
  method req = POST →
  request_data req = JObj m →
  m !! "name" = Some name → m !! "image" = Some image →
  m !! "username" = Some username → m !! "password" = Some password →
  generated ∉ (accounts_collection w).*1 →
  let doc := account_doc m name image username password in
  ∃ w', accounts cfg req generated path_id w
        = (Ok (JObj {[ "message" := JStr "Profile added";
                       "account" := JObj (<["_id" := JStr generated]> doc) ]}, 201), w')
    ∧ accounts_collection w' = (accounts_collection w ++ [(generated, doc)])%list
    ∧ doc !! "password" = Some password
    ∧ doc !! "accentColor" = Some (default (JStr "#0ea5e9") (m !! "accentColor"))
    ∧ ∀ req' generated' path_id',
        method req' = GET →
        accounts cfg req' generated' path_id' w'
        = (Ok (JArr ((with_str_id <$> accounts_collection w) ++
                     [JObj (<["_id" := JStr generated]> doc)])%list, 200), w').
Proof.
  intros Hadmin Hmeth Hdata Hn Hi Hu Hp Hfresh doc.
  rewrite (accounts_post_obj cfg req generated path_id w m name image username password
             Hadmin Hdata Hn Hi Hu Hp Hmeth).
  cbv zeta. rewrite bool_decide_eq_false_2 by done. fold doc.
  eexists. split; [reflexivity|]. cbn [accounts_collection outbox_set coll_set].
  split; [done|].
  destruct (account_doc_lookup m name image username password) as (_ & _ & _ & H4 & H5 & _).
  split; [exact H4|]. split; [exact H5|].
  intros req' generated' path_id' Hget. run_handler. rewrite Hget.
  cbn [session outbox_set coll_set]. rewrite Hadmin. cbn [negb].
  cbn [coll_get accounts_collection outbox_set coll_set].
  by rewrite fmap_app.
Qed.

(** ** Delivery of notifications *)

Ltac explore :=
  repeat first
    [ progress cbn [negb fst snd]
    | rewrite send_telegram_notification_spec
    | match goal with
      | |- context [is_admin_session ?s] => destruct (is_admin_session s)
      | |- context [all_in ?k ?d] => destruct (all_in k d) as [[]|[]]
      | |- context [py_getitem ?d ?k] => destruct (py_getitem d k) as [?|[]]
      | |- context [py_get ?d ?k ?x] => destruct (py_get d k x) as [?|[]]
      | |- context [ObjectId_new ?g ?p] => destruct (ObjectId_new g p) as [?|[]]
      | |- context [update_one ?o ?f ?c] => destruct (update_one o f c) as [[|?] ?]
      | |- context [delete_one ?o ?c] => destruct (delete_one o c) as [[|?] ?]
      | |- context [bool_decide (?g ∈ ?l)] => destruct (bool_decide (g ∈ l))
      | |- context [password_matches ?v ?p] => destruct (password_matches v p)
      | |- context [bool_decide (?x = 0)] =>
          first [ rewrite (bool_decide_eq_true_2 (x = 0)) by done
                | rewrite (bool_decide_eq_false_2 (x = 0)) by done ]
      end ].

Lemma telegram_only_posts (cfg cfg' : config) (req : request) (generated : ObjectId)
    (path_id : option string) (w : world) :
  ADMIN_PASSWORD cfg' = ADMIN_PASSWORD cfg →
  let same (a b : result response * world) := a.1 = b.1 ∧ silent a.2 = silent b.2 in
  same (scripts cfg req generated path_id w) (scripts cfg' req generated path_id w)
  ∧ same (accounts cfg req generated path_id w) (accounts cfg' req generated path_id w)
  ∧ same (admin_login cfg req w) (admin_login cfg' req w)
  ∧ same (notify_copy cfg req w) (notify_copy cfg' req w).
Proof.
  intros Hpw. cbv zeta. split; [|split; [|split]]; run_store; try rewrite Hpw.
  1, 2: destruct (method req).
  all: explore; by split.
Qed.

(** The reply, the session and both collections do not depend on whether
    Telegram is configured: two configurations with the same admin password
    give the same outcome, whatever their bot token and chat id. *)
Theorem reply_independent_of_telegram
    (cfg cfg' : config) (req : request) (generated : ObjectId)
    (path_id : option string) (w : world) :
  ADMIN_PASSWORD cfg' = ADMIN_PASSWORD cfg →
  let same (a b : result response * world) :=
    a.1 = b.1 ∧ session a.2 = session b.2
    ∧ scripts_collection a.2 = scripts_collection b.2
    ∧ accounts_collection a.2 = accounts_collection b.2 in
  same (scripts cfg req generated path_id w) (scripts cfg' req generated path_id w)
  ∧ same (accounts cfg req generated path_id w) (accounts cfg' req generated path_id w)
  ∧ same (admin_login cfg req w) (admin_login cfg' req w)
  ∧ same (notify_copy cfg req w) (notify_copy cfg' req w).
Proof.
  intros Hpw. cbv zeta.
  assert (∀ a b : world, silent a = silent b →
            session a = session b ∧ scripts_collection a = scripts_collection b
            ∧ accounts_collection a = accounts_collection b) as Hsilent.
  { intros a b Hab. by inversion Hab. }
  destruct (telegram_only_posts cfg cfg' req generated path_id w Hpw)
    as ([? ?] & [? ?] & [? ?] & [? ?]).
  repeat split; try done; by apply Hsilent.
Qed.

(** ** Method and login guards *)

(** The scripts and accounts views answer 405 exactly to a HEAD request by
    an admin (a HEAD request without a session is answered 401, even on the
    public scripts list). *)
Theorem method_not_allowed_only_for_head
    (h : handle) (cfg : config) (req : request) (generated : ObjectId)
    (path_id : option string) (w : world) :
  status_of (view h cfg req generated path_id w).1 = 405
  ↔ method req = HEAD ∧ is_admin_session (session w) = true.
Proof.
  destruct h; cbn [view]; run_store; destruct (method req); explore.
  all: cbn [status_of fst snd message].
  all: (split; [intros H | intros [H1 H2]]).
  all: try reflexivity.
  all: try (exfalso; lia).
  all: try discriminate.
  all: by split.
Qed.

(** A login never touches the collections; unless it is answered 200 it
    changes nothing at all, and it is answered 200 only when the body is a
    dict whose password compares equal to the configured secret. *)
Theorem login_changes_session_only_on_match
    (cfg : config) (req : request) (w : world) :
  let out := admin_login cfg req w in
  scripts_collection out.2 = scripts_collection w
  ∧ accounts_collection out.2 = accounts_collection w
  ∧ (status_of out.1 ≠ 200 → out.2 = w)
  ∧ (status_of out.1 = 200 →
     ∃ v, py_get (request_data req) "password" JNull = Ok v
       ∧ password_matches v (ADMIN_PASSWORD cfg) = true
       ∧ is_admin_session (session out.2) = true).
Proof.
  cbv zeta. run_store.
  destruct (py_get (request_data req) "password" JNull) as [v|e] eqn:Hget; cbn [fst snd].
  - destruct (password_matches v (ADMIN_PASSWORD cfg)) eqn:Hmatch.
    + rewrite send_telegram_notification_spec. cbn [fst snd status_of].
      repeat split; try done. intros _. exists v. repeat split; try done.
      cbn. apply is_admin_after_login.
    + cbn. repeat split; try done.
  - cbn. repeat split; try done.
Qed.

(** ** Copy notification *)

(** On a dict body the copy notification is always answered 200
    ["Notification sent"], with or without a session and whether or not
    anything was posted; the message is built from title and time (with
    their defaults) and does not depend on the key. *)
Theorem notify_copy_reply
    (cfg : config) (req : request) (w : world) (m : gmap string json) :
  request_data req = JObj m →
  notify_copy cfg req w
  = (Ok (JObj {[ "success" := JBool true; "message" := JStr "Notification sent" ]}, 200),
     outbox_set
       (telegram_outbox w ++
        posted cfg (script_copied (default (JStr "Unknown Script") (m !! "title"))
                                  (default (JStr "Unknown time") (m !! "time"))))%list w)
  ∧ ∀ key, notify_copy cfg (with_body (BodyJson (JObj (<["key" := key]> m))) req) w
           = notify_copy cfg req w.
Proof.
  intros Hdata.
  assert (∀ req' m', request_data req' = JObj m' →
            notify_copy cfg req' w
            = (Ok (JObj {[ "success" := JBool true;
                           "message" := JStr "Notification sent" ]}, 200),
               outbox_set
                 (telegram_outbox w ++
                  posted cfg (script_copied (default (JStr "Unknown Script") (m' !! "title"))
                                (default (JStr "Unknown time") (m' !! "time"))))%list w))
    as Heq.
  { intros req' m' Hdata'. run_store. rewrite Hdata'. cbn [py_get fst snd].
    by rewrite send_telegram_notification_spec. }
  split; [by apply Heq|]. intros key.
  rewrite (Heq req m Hdata).
  rewrite (Heq _ (<["key" := key]> m)) by by apply request_data_obj.
  by rewrite !lookup_insert_ne.
Qed.

(** ** Image upload *)

Lemma str_contains_dot (c : ascii) (rest : string) :
  str_contains "." (String c rest) = Ascii.eqb c "." || str_contains "." rest.
Proof.
  cbn [str_contains String.prefix].
  destruct (ascii_dec "." c) as [<-|Hne].
  - by destruct rest.
  - rewrite (proj2 (Ascii.eqb_neq c ".")) by congruence. done.
Qed.

(** [rsplit_dot] finds a dot exactly when the name has one; the part after
    it has none, and the three pieces give the name back. *)
Lemma rsplit_dot_spec (s : string) :
  match rsplit_dot s with
  | Some (before, after) =>
      str_contains "." s = true ∧ s = before +:+ "." +:+ after
      ∧ str_contains "." after = false
  | None => str_contains "." s = false
  end.
Proof.
  induction s as [|c rest IH]; [reflexivity|].
  cbn [rsplit_dot]. rewrite str_contains_dot.
  destruct (rsplit_dot rest) as [[before after]|].
  - destruct IH as (-> & -> & Hafter). rewrite orb_true_r. done.
  - rewrite IH, orb_false_r. destruct (Ascii.eqb c ".") eqn:Hc; [|done].
    apply Ascii.eqb_eq in Hc. subst c. done.
Qed.

(** The upload handler never changes the world and never answers 500.
    Without a session it answers 401, without an [image] part or with an
    empty file name 400.  Otherwise it answers 200 with a data URL whose
    type is the lower-cased text after the last dot of the file name, or
    [png] when the name has no dot. *)
Theorem upload_image_reply
    (b64encode secure_filename str_lower : string → string)
    (files : gmap string upload) (w : world) :
  let out := upload_image b64encode secure_filename str_lower files w in
  out.2 = w
  ∧ status_of out.1 ≠ 500
  ∧ (is_admin_session (session w) = false → out.1 = Ok Unauthorized)
  ∧ (is_admin_session (session w) = true →
     match files !! "image" with
     | None => out.1 = Ok (message "No image file provided", 400)
     | Some file =>
         (filename file = "" → out.1 = Ok (message "No selected file", 400))
         ∧ (filename file ≠ "" →
            ∃ ext,
              out.1 = Ok (JObj {[ "success" := JBool true;
                                  "imageUrl" :=
                                    JStr ("data:" +:+ ("image/" +:+ ext) +:+ ";base64,"
                                          +:+ b64encode (content file));
                                  "filename" := JStr (secure_filename (filename file)) ]},
                          200)
              ∧ (str_contains "." (filename file) = false → ext = "png")
              ∧ (str_contains "." (filename file) = true →
                 ∃ before after,
                   filename file = before +:+ "." +:+ after
                   ∧ str_contains "." after = false
                   ∧ ext = str_lower after))
     end).
Proof.
  cbv zeta. unfold upload_image. run_store.
  destruct (is_admin_session (session w)); cbn [negb fst snd];
    [|repeat split; done].
  destruct (files !! "image") as [file|]; cbn [fst snd]; [|repeat split; done].
  destruct (String.eqb_spec (filename file) "") as [Hname|Hname]; cbn [fst snd];
    [repeat split; done|].
  unfold upload_ext. pose proof (rsplit_dot_spec (filename file)) as Hsplit.
  destruct (rsplit_dot (filename file)) as [[before after]|].
  - destruct Hsplit as (Hdot & Hparts & Hafter). rewrite Hdot. cbn [fmap option_fmap option_map fst snd].
    repeat split; try done. intros _. eexists. split; [reflexivity|].
    split; [done|]. intros _. by exists before, after.
  - rewrite Hsplit. cbn [fst snd]. repeat split; try done. intros _.
    eexists. split; [reflexivity|]. split; done.
Qed.

(** ** Instances *)

Lemma failed_request_changes_nothing_witness :
  let w := world_of admin_session [(demo_oid, aimbot)] [(zero_oid, alice)] in
  (view Scripts demo_cfg (request_of PUT (BodyJson (JObj aimbot))) demo_oid
     (Some "000000000000000000000000") w).2 = w.
Proof.
  intros w. apply failed_request_changes_nothing; vm_compute; discriminate.
Defined.

Lemma ids_stay_distinct_witness :
  let w := world_of admin_session [(zero_oid, aimbot)] [] in
  NoDup (coll_get Scripts
           (view Scripts demo_cfg (request_of POST (BodyJson (JObj aimbot)))
              demo_oid None w).2).*1.
Proof.
  intros w. apply ids_stay_distinct. cbn. apply NoDup_singleton.
Defined.

Lemma delete_then_gone_witness :
  let w := world_of admin_session [] [(demo_oid, alice); (zero_oid, alice)] in
  (view Accounts demo_cfg (request_of DELETE BodyAbsent) demo_oid
     (Some "000000000000000000000000") w).1 = Ok (deleted_reply Accounts).
Proof.
  intros w.
  destruct (delete_then_gone Accounts demo_cfg (request_of DELETE BodyAbsent) demo_oid
              "000000000000000000000000" w) as (w' & -> & _);
    [vm_compute; reflexivity | reflexivity | vm_compute; reflexivity
    | cbn; repeat constructor
    | cbn; apply NoDup_cons; split;
        [rewrite list_elem_of_singleton; discriminate | apply NoDup_singleton] |].
  reflexivity.
Defined.

Lemma update_overwrites_witness :
  let w := world_of admin_session [(zero_oid, <["note" := JStr "keep"]> aimbot)] [] in
  let req := request_of PUT (BodyJson (JObj {[ "title" := JStr "ESP"; "image" := JStr "e.png";
                                             "key" := JStr "K2" ]})) in
  scripts_collection (scripts demo_cfg req demo_oid (Some "000000000000000000000000") w).2
  = [(zero_oid, {[ "title" := JStr "ESP"; "image" := JStr "e.png"; "key" := JStr "K2";
                   "note" := JStr "keep" ]})].
Proof.
  intros w req.
  destruct (update_overwrites demo_cfg req demo_oid "000000000000000000000000" w
              {[ "title" := JStr "ESP"; "image" := JStr "e.png"; "key" := JStr "K2" ]}
              (JStr "ESP") (JStr "e.png") (JStr "K2")) as (w' & Hrun & Hcoll & _);
    [vm_compute; reflexivity | reflexivity | vm_compute; reflexivity
    | vm_compute; reflexivity | vm_compute; reflexivity | vm_compute; reflexivity
    | vm_compute; reflexivity | cbn; repeat constructor | cbn; apply NoDup_singleton |].
  rewrite Hrun. cbn [snd]. rewrite Hcoll. vm_compute; reflexivity.
Defined.

Lemma account_update_replaces_profile_witness :
  let w := world_of admin_session [] [(zero_oid, <["accentColor" := JStr "#ff0000"]> alice)] in
  let req := request_of PUT (BodyJson (JObj (delete "accentColor" alice))) in
  accounts_collection (accounts demo_cfg req demo_oid (Some "000000000000000000000000") w).2
  = [(zero_oid, alice)].
Proof.
  intros w req.
  destruct (account_update_replaces_profile demo_cfg req demo_oid
              "000000000000000000000000" w (delete "accentColor" alice)
              (JStr "alice") (JStr "a.png") (JStr "al") (JStr "s3cret"))
    as (w' & Hrun & Hcoll & _);
    [vm_compute; reflexivity | reflexivity | vm_compute; reflexivity
    | vm_compute; reflexivity | vm_compute; reflexivity | vm_compute; reflexivity
    | vm_compute; reflexivity | vm_compute; reflexivity | cbn; repeat constructor
    | cbn; apply NoDup_singleton |].
  rewrite Hrun. cbn [snd]. rewrite Hcoll. vm_compute; reflexivity.
Defined.

Lemma create_then_delete_restores_witness :
  let w := world_of admin_session [(zero_oid, aimbot)] [] in
  let created := (scripts demo_cfg (request_of POST (BodyJson (JObj aimbot)))
                    demo_oid None w).2 in
  scripts_collection
    (scripts demo_cfg (request_of DELETE BodyAbsent) zero_oid
       (Some "65f0c0ffee0123456789abcd") created).2
  = [(zero_oid, aimbot)].
Proof.
  intros w created.
  apply (create_then_delete_restores demo_cfg (request_of POST (BodyJson (JObj aimbot)))
           demo_oid None w aimbot (JStr "Aimbot") (JStr "http://x/y.png") (JStr "ABC123"));
    [vm_compute; reflexivity | reflexivity | vm_compute; reflexivity
    | vm_compute; reflexivity | vm_compute; reflexivity | vm_compute; reflexivity
    | cbn; rewrite list_elem_of_singleton; discriminate
    | vm_compute; reflexivity | vm_compute; reflexivity | reflexivity].
Defined.

Lemma account_create_then_list_witness :
  let w := world_of admin_session [] [] in
  let req := request_of POST (BodyJson (JObj (delete "accentColor" alice))) in
  accounts_collection (accounts demo_cfg req zero_oid None w).2 = [(zero_oid, alice)].
Proof.
  intros w req.
  destruct (account_create_then_list demo_cfg req zero_oid None w
              (delete "accentColor" alice)
              (JStr "alice") (JStr "a.png") (JStr "al") (JStr "s3cret"))
    as (w' & Hrun & Hcoll & _);
    [vm_compute; reflexivity | reflexivity | vm_compute; reflexivity
    | vm_compute; reflexivity | vm_compute; reflexivity | vm_compute; reflexivity
    | vm_compute; reflexivity | cbn; apply not_elem_of_nil |].
  rewrite Hrun. cbn [snd]. rewrite Hcoll. vm_compute; reflexivity.
Defined.

Lemma reply_independent_of_telegram_witness :
  let w := world_of admin_session [] [] in
  let req := request_of POST (BodyJson (JObj aimbot)) in
  (scripts demo_cfg req demo_oid None w).1
  = (scripts (without_telegram demo_cfg) req demo_oid None w).1.
Proof.
  intros w req.
  destruct (reply_independent_of_telegram demo_cfg (without_telegram demo_cfg) req
              demo_oid None w eq_refl) as ((Hreply & _) & _).
  exact Hreply.
Defined.

Lemma notify_copy_reply_witness :
  let w := world_of ∅ [] [] in
  let req := request_of POST (BodyJson (JObj {[ "title" := JStr "Aimbot";
                                              "key" := JStr "ABC123" ]})) in
  telegram_outbox (notify_copy demo_cfg req w).2
  = [script_copied (JStr "Aimbot") (JStr "Unknown time")].
Proof.
  intros w req.
  destruct (notify_copy_reply demo_cfg req w
              {[ "title" := JStr "Aimbot"; "key" := JStr "ABC123" ]}) as [-> _];
    [vm_compute; reflexivity|].
  vm_compute; reflexivity.
Defined.
